(** * The cache layer of [server/lib/cache/index.js]

    A shallow embedding of the cache facade, the memoization wrapper and the
    invalidation fan-out, with the JavaScript effects written out:

    - a call either returns or throws ([result]);
    - a promise, once settled, is fulfilled or rejected ([promise]); promises
      that never settle are left out;
    - an [async] function never throws to its caller: an exception of its body
      rejects the promise it returns, and a promise it returns is adopted;
    - [await] turns a rejection back into an exception;
    - a call whose promise is dropped is run where it is made ([floating]).
      Every facade method awaits the same provider promise once before it
      delegates, and reactions of one promise run in registration order, so
      the provider receives the delegated calls in the order of issue.  The
      logs of distinct collaborators are kept apart: no order between them is
      modelled;
    - a provider acts on the state of its store, and the application code
      the layer calls (wrapped functions, CDN purge, contributors cache) on
      a state of its own. *)

From Stdlib Require Import String Ascii ZArith List Bool DecimalString Lia.
Import ListNotations.
Open Scope string_scope.

(** ** JavaScript values *)

(** A number is an integer-valued JavaScript Number, given by its value: every
    integer below 2^53 in absolute value is one, and beyond those the integers
    with 53 significant bits ([is_double]).  The fields of an object are
    listed in the order JavaScript enumerates them, each name once.  Thrown
    values are [Error] objects. *)
#[local] Set Warnings "-register-all".
Inductive value : Type :=
| VUndefined
| VNull
| VBool (b : bool)
| VNum (n : Z)
| VStr (s : string)
| VArr (elements : list value)
| VObj (fields : list (string * value)).

Record error : Type := Error_ { name : string; message : string }.

Definition Error (msg : string) : error := {| name := "Error"; message := msg |}.
Definition TypeError (msg : string) : error := {| name := "TypeError"; message := msg |}.

(** [ToBoolean], used by [if (x)] and [!x]. *)
Definition truthy (v : value) : bool :=
  match v with
  | VUndefined | VNull => false
  | VBool b => b
  | VNum n => negb (Z.eqb n 0)
  | VStr s => negb (String.eqb s "")
  | VArr _ | VObj _ => true
  end.

(** *** Numbers and their text *)

(** [Number.isSafeInteger(n)]. *)
Definition safe_integer (n : Z) : bool :=
  Z.ltb (Z.abs n) (2 ^ 53).

(** The integer [n] rounded to 53 significant bits, ties to even: the value
    of the Number that a literal [n] denotes, as long as it is finite. *)
Definition to_double (n : Z) : Z :=
  let a := Z.abs n in
  if safe_integer n then n
  else
    let ulp := (2 ^ (Z.log2 a - 52))%Z in
    let q := (a / ulp)%Z in
    let r := (a mod ulp)%Z in
    let q' := if Z.ltb (2 * r) ulp then q
              else if Z.ltb ulp (2 * r) then (q + 1)%Z
              else if Z.even q then q
              else (q + 1)%Z in
    (Z.sgn n * (q' * ulp))%Z.

(** Beyond the largest Number, a literal denotes [Infinity]. *)
Definition overflows (n : Z) : bool :=
  Z.leb (2 ^ 1024) (Z.abs (to_double n)).



Definition digits_of (n : Z) : string :=
  NilZero.string_of_int (Z.to_int n).

(** The decimal with the fewest significant digits that denotes the Number
    [x] (positive, [places] digits long), tried from [k] digits on: with [k]
    digits, the candidates are the two decimals next to [x]; of two that
    denote [x] the closer one is taken, and the one with the even last digit
    when they are as close. *)
Fixpoint shortest_from (fuel : nat) (k places x : Z) : Z :=
  match fuel with
  | O => x
  | S fuel' =>
      if Z.leb places k then x
      else
        let scale := (10 ^ (places - k))%Z in
        let below := (x / scale * scale)%Z in
        let above := (below + scale)%Z in
        match Z.eqb (to_double below) x, Z.eqb (to_double above) x with
        | true, true =>
            if Z.ltb (x - below) (above - x) then below
            else if Z.ltb (above - x) (x - below) then above
            else if Z.even (x / scale) then below
            else above
        | true, false => below
        | false, true => above
        | false, false => shortest_from fuel' (k + 1)%Z places x
        end
  end.

Definition shortest (x : Z) : Z :=
  if safe_integer x then x
  else shortest_from 17 1 (Z.of_nat (String.length (digits_of x))) x.

(** The digits of [s] without its zeros at the end. *)
Fixpoint strip_zeros (s : string) : string :=
  match s with
  | EmptyString => EmptyString
  | String c rest =>
      match strip_zeros rest with
      | EmptyString => if Ascii.eqb c "0" then EmptyString else String c EmptyString
      | rest' => String c rest'
      end
  end.

(** [Number::toString]: the shortest decimal that denotes the number, written
    out in full up to 21 digits, and in exponent notation beyond ([1e+21],
    [1.5e+21]). *)
Definition Number_toString (n : Z) : string :=
  if overflows n then (if Z.ltb n 0 then "-Infinity" else "Infinity")
  else
    let digits := digits_of (shortest (Z.abs (to_double n))) in
    (if Z.ltb n 0 then "-" else "") ++
    (if Nat.leb (String.length digits) 21 then digits
     else
       let exponent := NilZero.string_of_uint (Nat.to_uint (String.length digits - 1)) in
       match strip_zeros digits with
       | EmptyString => EmptyString
       | String d EmptyString => String d EmptyString ++ "e+" ++ exponent
       | String d rest => String d ("." ++ rest) ++ "e+" ++ exponent
       end).

(** [ToString], used by template literals. *)
Fixpoint toString (v : value) : string :=
  match v with
  | VUndefined => "undefined"
  | VNull => "null"
  | VBool true => "true"
  | VBool false => "false"
  | VNum n => Number_toString n
  | VStr s => s
  | VArr l =>
      String.concat ","
        (map (fun x => match x with
                       | VUndefined | VNull => ""
                       | _ => toString x
                       end) l)
  | VObj _ => "[object Object]"
  end.

(** [x === 'literal']. *)
Definition strict_eq_str (v : value) (s : string) : bool :=
  match v with
  | VStr t => String.eqb t s
  | _ => false
  end.

(** [x === undefined]. *)
Definition is_undefined (v : value) : bool :=
  match v with
  | VUndefined => true
  | _ => false
  end.

(** A default value of a destructured parameter: used when the property is
    [undefined]. *)
Definition default (v d : value) : value :=
  if is_undefined v then d else v.

(** The elements [for (const x of v)] visits; [None] when [v] is not
    iterable. *)
Definition iterate (v : value) : option (list value) :=
  match v with
  | VArr l => Some l
  | VStr s => Some (map (fun c => VStr (String c EmptyString)) (list_ascii_of_string s))
  | _ => None
  end.

(** Property access on a plain object; anything else has no own data
    property of interest here. *)
Fixpoint lookup (k : string) (fields : list (string * value)) : value :=
  match fields with
  | [] => VUndefined
  | (k', v) :: rest => if String.eqb k k' then v else lookup k rest
  end.

Definition prop (v : value) (k : string) : value :=
  match v with
  | VObj fields => lookup k fields
  | _ => VUndefined
  end.

Fixpoint has_key (k : string) (fields : list (string * value)) : bool :=
  match fields with
  | [] => false
  | (k', _) :: rest => String.eqb k k' || has_key k rest
  end.

(** [k in Object(v)], for a name that no prototype carries. *)
Definition has_prop (v : value) (k : string) : bool :=
  match v with
  | VObj fields => has_key k fields
  | _ => false
  end.

(** lodash [get(object, 'a.b')], the path given by its names between the
    dots.  When the object has a property whose name is the whole path
    string, dots included, lodash takes the path as that one name; else it
    walks the names. *)
Definition get (object : value) (path : list string) : value :=
  let whole := String.concat "." path in
  if has_prop object whole then prop object whole
  else fold_left prop path object.

(** ** JSON text *)

Definition quote : string := String (ascii_of_nat 34) EmptyString.

Definition backslash : string := String (ascii_of_nat 92) EmptyString.

Definition hex_digit (n : nat) : string :=
  String.substring n 1 "0123456789abcdef".

(** One character inside a JSON string ([QuoteJSONString]). *)
Definition escape (c : ascii) : string :=
  let n := nat_of_ascii c in
  if Nat.eqb n 34 then backslash ++ quote
  else if Nat.eqb n 92 then backslash ++ backslash
  else if Nat.eqb n 8 then backslash ++ "b"
  else if Nat.eqb n 9 then backslash ++ "t"
  else if Nat.eqb n 10 then backslash ++ "n"
  else if Nat.eqb n 12 then backslash ++ "f"
  else if Nat.eqb n 13 then backslash ++ "r"
  else if Nat.ltb n 32 then backslash ++ "u00" ++ hex_digit (n / 16) ++ hex_digit (n mod 16)
  else String c EmptyString.

Definition QuoteJSONString (s : string) : string :=
  quote ++ String.concat "" (map escape (list_ascii_of_string s)) ++ quote.

(** [JSON.stringify(v)]: the JSON text, or [None] for the [undefined] it
    returns when [v] is [undefined].  In an array [undefined] reads [null];
    in an object a property that holds [undefined] is left out; a number
    that is not finite reads [null]. *)
Fixpoint JSON_stringify (v : value) : option string :=
  match v with
  | VUndefined => None
  | VNull => Some "null"
  | VBool true => Some "true"
  | VBool false => Some "false"
  | VNum n => Some (if overflows n then "null" else Number_toString n)
  | VStr s => Some (QuoteJSONString s)
  | VArr l =>
      Some ("[" ++
            String.concat ","
              (map (fun x => match JSON_stringify x with
                             | Some text => text
                             | None => "null"
                             end) l) ++
            "]")
  | VObj fields =>
      Some ("{" ++
            String.concat ","
              (flat_map (fun f => match JSON_stringify (snd f) with
                                  | Some text => [QuoteJSONString (fst f) ++ ":" ++ text]
                                  | None => []
                                  end) fields) ++
            "}")
  end.

(** The [arguments] object of a call: not an array, but an object whose
    enumerable properties are the indices of the arguments. *)
Definition arguments_object (args : list value) : value :=
  VObj (combine
          (map (fun i => NilZero.string_of_uint (Nat.to_uint i)) (seq 0 (length args)))
          args).

(** ** Calls and promises *)

Inductive result (A : Type) : Type :=
| Ok (a : A)
| Thrown (e : error).
Arguments Ok {A} a.
Arguments Thrown {A} e.

Inductive promise (A : Type) : Type :=
| Fulfilled (a : A)
| Rejected (e : error).
Arguments Fulfilled {A} a.
Arguments Rejected {A} e.

Module PROVIDER_TYPES.
Definition MEMCACHE : string := "MEMCACHE".
Definition MEMORY : string := "MEMORY".
Definition REDIS : string := "REDIS".
End PROVIDER_TYPES.

Definition oneDayInSeconds : Z := 60 * 60 * 24.

(** ** Configuration precedence *)

Definition getDefaultProviderType (config : value) : string :=
  if truthy (get config ["redis"; "serverUrl"]) then PROVIDER_TYPES.REDIS
  else if truthy (get config ["memcache"; "servers"]) then PROVIDER_TYPES.MEMCACHE
  else PROVIDER_TYPES.MEMORY.

(** ** The provider interface and the state of the process *)

(** The types the cache layer is generic in: the state owned by the backing
    store, the state of the application code it calls into (wrapped
    functions, CDN purge, contributors cache), and the [serialize] and
    [unserialize] callbacks, which it passes through untouched. *)
Class Types : Type := {
  St : Type;
  App : Type;
  transform : Type;
}.

Section CacheLayer.

Context {T : Types}.

Record GetOptions : Type := { unserialize : option transform }.
Record SetOptions : Type := { serialize : option transform }.

(** What a provider method does when called: it returns a promise (or a
    plain value, which an [async] caller treats as a fulfilled one) or
    throws before returning. *)
Definition outcome : Type := result (promise value).

Record Provider : Type := {
  p_clear : St -> outcome * St;
  p_delete : value -> St -> outcome * St;
  p_get : value -> option GetOptions -> St -> outcome * St;
  p_has : value -> St -> outcome * St;
  p_set : value -> value -> value -> option SetOptions -> St -> outcome * St;
}.

Inductive provider_call : Type :=
| PClear
| PDelete (key : value)
| PGet (key : value) (options : option GetOptions)
| PHas (key : value)
| PSet (key : value) (v : value) (expirationInSeconds : value)
       (options : option SetOptions).

(** What the module imports from the rest of the repository: the three
    provider factories ([./memcache], [./redis], [./memory]), [md5] of
    [../utils], the CDN purge of [../cloudflare] and the contributors cache
    of [../contributors]. *)
Class Imports : Type := {
  makeMemcacheProvider : value -> result (promise Provider);
  makeRedisProvider : result (promise Provider);
  makeMemoryProvider : value -> result (promise Provider);
  md5 : string -> string;
  purgeCacheForPage : string -> App -> outcome * App;
  invalidateContributorsCache : value -> App -> outcome * App;
}.

Record world : Type := {
  config : value;                              (* the [config] module *)
  defaultProvider : option (promise Provider); (* [let defaultProvider] *)
  backend : St;
  app : App;
  debugs : list string;                        (* [debugCache] lines *)
  warnings : list string;                      (* [logger.warn] lines *)
  providerCalls : list provider_call;          (* calls the provider received *)
  instantiated : list string;                  (* provider factories invoked *)
  funcCalls : list (list value);               (* invocations of a wrapped function *)
  pagePurges : list string;                    (* [purgeCacheForPage] calls *)
  contributorsInvalidations : list value;      (* [invalidateContributorsCache] calls *)
  unhandled : list error;                      (* rejections of dropped promises *)
}.

Definition with_defaultProvider (p : option (promise Provider)) (w : world) : world :=
  {| config := config w; defaultProvider := p; backend := backend w; app := app w;
     debugs := debugs w; warnings := warnings w; providerCalls := providerCalls w;
     instantiated := instantiated w; funcCalls := funcCalls w;
     pagePurges := pagePurges w;
     contributorsInvalidations := contributorsInvalidations w;
     unhandled := unhandled w |}.

Definition with_config (c : value) (w : world) : world :=
  {| config := c; defaultProvider := defaultProvider w; backend := backend w;
     app := app w; debugs := debugs w; warnings := warnings w;
     providerCalls := providerCalls w; instantiated := instantiated w;
     funcCalls := funcCalls w; pagePurges := pagePurges w;
     contributorsInvalidations := contributorsInvalidations w;
     unhandled := unhandled w |}.

Definition with_backend (s : St) (w : world) : world :=
  {| config := config w; defaultProvider := defaultProvider w; backend := s;
     app := app w; debugs := debugs w; warnings := warnings w;
     providerCalls := providerCalls w; instantiated := instantiated w;
     funcCalls := funcCalls w; pagePurges := pagePurges w;
     contributorsInvalidations := contributorsInvalidations w;
     unhandled := unhandled w |}.

Definition with_app (a : App) (w : world) : world :=
  {| config := config w; defaultProvider := defaultProvider w; backend := backend w;
     app := a; debugs := debugs w; warnings := warnings w;
     providerCalls := providerCalls w; instantiated := instantiated w;
     funcCalls := funcCalls w; pagePurges := pagePurges w;
     contributorsInvalidations := contributorsInvalidations w;
     unhandled := unhandled w |}.

Definition log_debug (line : string) (w : world) : world :=
  {| config := config w; defaultProvider := defaultProvider w; backend := backend w;
     app := app w; debugs := debugs w ++ [line]; warnings := warnings w;
     providerCalls := providerCalls w; instantiated := instantiated w;
     funcCalls := funcCalls w; pagePurges := pagePurges w;
     contributorsInvalidations := contributorsInvalidations w;
     unhandled := unhandled w |}.

Definition log_warning (line : string) (w : world) : world :=
  {| config := config w; defaultProvider := defaultProvider w; backend := backend w;
     app := app w; debugs := debugs w; warnings := warnings w ++ [line];
     providerCalls := providerCalls w; instantiated := instantiated w;
     funcCalls := funcCalls w; pagePurges := pagePurges w;
     contributorsInvalidations := contributorsInvalidations w;
     unhandled := unhandled w |}.

Definition log_providerCall (c : provider_call) (w : world) : world :=
  {| config := config w; defaultProvider := defaultProvider w; backend := backend w;
     app := app w; debugs := debugs w; warnings := warnings w;
     providerCalls := providerCalls w ++ [c]; instantiated := instantiated w;
     funcCalls := funcCalls w; pagePurges := pagePurges w;
     contributorsInvalidations := contributorsInvalidations w;
     unhandled := unhandled w |}.

Definition log_instantiated (t : string) (w : world) : world :=
  {| config := config w; defaultProvider := defaultProvider w; backend := backend w;
     app := app w; debugs := debugs w; warnings := warnings w;
     providerCalls := providerCalls w; instantiated := instantiated w ++ [t];
     funcCalls := funcCalls w; pagePurges := pagePurges w;
     contributorsInvalidations := contributorsInvalidations w;
     unhandled := unhandled w |}.

Definition log_funcCall (args : list value) (w : world) : world :=
  {| config := config w; defaultProvider := defaultProvider w; backend := backend w;
     app := app w; debugs := debugs w; warnings := warnings w;
     providerCalls := providerCalls w; instantiated := instantiated w;
     funcCalls := funcCalls w ++ [args]; pagePurges := pagePurges w;
     contributorsInvalidations := contributorsInvalidations w;
     unhandled := unhandled w |}.

Definition log_pagePurge (path : string) (w : world) : world :=
  {| config := config w; defaultProvider := defaultProvider w; backend := backend w;
     app := app w; debugs := debugs w; warnings := warnings w;
     providerCalls := providerCalls w; instantiated := instantiated w;
     funcCalls := funcCalls w; pagePurges := pagePurges w ++ [path];
     contributorsInvalidations := contributorsInvalidations w;
     unhandled := unhandled w |}.

Definition log_contributorsInvalidation (id : value) (w : world) : world :=
  {| config := config w; defaultProvider := defaultProvider w; backend := backend w;
     app := app w; debugs := debugs w; warnings := warnings w;
     providerCalls := providerCalls w; instantiated := instantiated w;
     funcCalls := funcCalls w; pagePurges := pagePurges w;
     contributorsInvalidations := contributorsInvalidations w ++ [id];
     unhandled := unhandled w |}.

Definition log_unhandled (e : error) (w : world) : world :=
  {| config := config w; defaultProvider := defaultProvider w; backend := backend w;
     app := app w; debugs := debugs w; warnings := warnings w;
     providerCalls := providerCalls w; instantiated := instantiated w;
     funcCalls := funcCalls w; pagePurges := pagePurges w;
     contributorsInvalidations := contributorsInvalidations w;
     unhandled := unhandled w ++ [e] |}.

(** ** Computations: state passing with exceptions *)

Definition M (A : Type) : Type := world -> result A * world.

Definition ret {A} (a : A) : M A := fun w => (Ok a, w).

Definition throw {A} (e : error) : M A := fun w => (Thrown e, w).

Definition bind {A B} (m : M A) (k : A -> M B) : M B :=
  fun w =>
    match m w with
    | (Ok a, w') => k a w'
    | (Thrown e, w') => (Thrown e, w')
    end.

Definition modify (f : world -> world) : M unit := fun w => (Ok tt, f w).

Definition read {A} (f : world -> A) : M A := fun w => (Ok (f w), w).

(** [try { body } catch (err) { handler }]. *)
Definition try_catch {A} (body : M A) (handler : error -> M A) : M A :=
  fun w =>
    match body w with
    | (Ok a, w') => (Ok a, w')
    | (Thrown e, w') => handler e w'
    end.

(** The body of an [async] function: what it returns is adopted, what it
    throws rejects the promise; the call itself always returns. *)
Definition async {A} (body : M (promise A)) : M (promise A) :=
  fun w =>
    match body w with
    | (Ok p, w') => (Ok p, w')
    | (Thrown e, w') => (Ok (Rejected e), w')
    end.

Definition await {A} (p : promise A) : M A :=
  match p with
  | Fulfilled a => ret a
  | Rejected e => throw e
  end.

(** [promise.then(callback)]. *)
Definition then_ {A B} (p : promise A) (callback : A -> M B) : M (promise B) :=
  match p with
  | Fulfilled a =>
      fun w =>
        match callback a w with
        | (Ok b, w') => (Ok (Fulfilled b), w')
        | (Thrown e, w') => (Ok (Rejected e), w')
        end
  | Rejected e => ret (Rejected e)
  end.

(** A call statement whose promise nobody keeps: a rejection of it is
    handled by no one. *)
Definition floating {A} (call : M (promise A)) : M unit :=
  bind call (fun p =>
    match p with
    | Fulfilled _ => ret tt
    | Rejected e => modify (log_unhandled e)
    end).

(** [for (const x of l) { body }]. *)
Fixpoint for_of {A} (l : list A) (body : A -> M unit) : M unit :=
  match l with
  | [] => ret tt
  | x :: rest => bind (body x) (fun _ => for_of rest body)
  end.


Notation "x <- m ;; k" := (bind m (fun x => k))
  (at level 61, m at next level, right associativity).
Notation "m ;; k" := (bind m (fun _ => k))
  (at level 61, right associativity).

(** A call into code that touches none of the state modelled here. *)
Definition call {A} (r : result A) : M A := fun w => (r, w).

Definition debugCache (line : string) : M unit := modify (log_debug line).

Definition logger_warn (line : string) : M unit := modify (log_warning line).

(** ** Provider resolution *)

Context {I : Imports}.

Definition getProvider (providerType : value) : M (promise Provider) :=
  async (
    if strict_eq_str providerType PROVIDER_TYPES.MEMCACHE then
      cfg <- read config ;;
      modify (log_instantiated PROVIDER_TYPES.MEMCACHE) ;;
      call (makeMemcacheProvider (get cfg ["memcache"]))
    else if strict_eq_str providerType PROVIDER_TYPES.REDIS then
      modify (log_instantiated PROVIDER_TYPES.REDIS) ;;
      call makeRedisProvider
    else if strict_eq_str providerType PROVIDER_TYPES.MEMORY then
      modify (log_instantiated PROVIDER_TYPES.MEMORY) ;;
      call (makeMemoryProvider (VObj [("max", VNum 1000)]))
    else
      throw (Error ("Unsupported cache provider: " ++ toString providerType))).

Definition getDefaultProvider : M (promise Provider) :=
  cfg <- read config ;;
  let defaultProviderType := getDefaultProviderType cfg in
  current <- read defaultProvider ;;
  match current with
  | None =>
      p <- getProvider (VStr defaultProviderType) ;;
      modify (with_defaultProvider (Some p)) ;;
      ret p
  | Some p => ret p
  end.

(** ** The facade *)

(** [provider.op(...)]: the provider receives the call, and what the call
    returns or throws is the provider's. *)
Definition delegate (c : provider_call) (op : St -> outcome * St) : M (promise value) :=
  fun w =>
    let (r, s') := op (backend w) in
    (r, with_backend s' (log_providerCall c w)).

Definition cache_clear : M (promise value) :=
  async (try_catch
    (debugCache "clear" ;;
     provider <- (p <- getDefaultProvider ;; await p) ;;
     delegate PClear (p_clear provider))
    (fun err =>
       logger_warn ("Error while clearing cache: " ++ message err) ;;
       ret (Fulfilled VUndefined))).

Definition cache_delete (key : value) : M (promise value) :=
  async (try_catch
    (debugCache ("delete " ++ toString key) ;;
     provider <- (p <- getDefaultProvider ;; await p) ;;
     delegate (PDelete key) (p_delete provider key))
    (fun err =>
       logger_warn ("Error while deleting from cache: " ++ message err) ;;
       ret (Fulfilled VUndefined))).

Definition cache_get (key : value) (options : option GetOptions) : M (promise value) :=
  async (try_catch
    (debugCache ("get " ++ toString key) ;;
     provider <- (p <- getDefaultProvider ;; await p) ;;
     delegate (PGet key options) (p_get provider key options))
    (fun err =>
       logger_warn ("Error while fetching from cache: " ++ message err) ;;
       ret (Fulfilled VUndefined))).

Definition cache_has (key : value) : M (promise value) :=
  async (try_catch
    (debugCache ("has " ++ toString key) ;;
     provider <- (p <- getDefaultProvider ;; await p) ;;
     delegate (PHas key) (p_has provider key))
    (fun err =>
       logger_warn ("Error while checking from cache: " ++ message err) ;;
       ret (Fulfilled VUndefined))).

Definition cache_set (key v expirationInSeconds : value) (options : option SetOptions)
  : M (promise value) :=
  async (try_catch
    (debugCache ("set " ++ toString key) ;;
     provider <- (p <- getDefaultProvider ;; await p) ;;
     delegate (PSet key v expirationInSeconds options)
              (p_set provider key v expirationInSeconds options))
    (fun err =>
       logger_warn ("Error while writing to cache: " ++ message err) ;;
       ret (Fulfilled VUndefined))).

Inductive facade_op : Type :=
| OpClear
| OpDelete (key : value)
| OpGet (key : value) (options : option GetOptions)
| OpHas (key : value)
| OpSet (key v expirationInSeconds : value) (options : option SetOptions).

Definition facade (op : facade_op) : M (promise value) :=
  match op with
  | OpClear => cache_clear
  | OpDelete key => cache_delete key
  | OpGet key options => cache_get key options
  | OpHas key => cache_has key
  | OpSet key v ttl options => cache_set key v ttl options
  end.

(** ** Memoization *)

Record MemoizeOptions : Type := {
  key : string;
  maxAge : value;                       (* [undefined] when not given *)
  memo_serialize : option transform;
  memo_unserialize : option transform;
}.

(** [args.length ? `${key}_${md5(JSON.stringify(args))}` : key], where [args]
    is the [arguments] object of the call.  An object always has a JSON
    text, so the branch of [md5(undefined)] is never taken. *)
Definition cacheKey (key : string) (args : list value) : string :=
  match length args with
  | O => key
  | S _ =>
      match JSON_stringify (arguments_object args) with
      | Some text => key ++ "_" ++ md5 text
      | None => key ++ "_" ++ md5 "undefined"
      end
  end.

(** [func(...arguments)]. *)
Definition invoke (func : list value -> App -> outcome * App) (args : list value)
  : M (promise value) :=
  fun w =>
    let (r, a') := func args (app w) in
    (r, with_app a' (log_funcCall args w)).

Record Memoized : Type := {
  memoizedFunction : list value -> M (promise value);
  refresh : list value -> M (promise value);
  clear : list value -> M (promise value);
}.

Definition memoize (func : list value -> App -> outcome * App) (o : MemoizeOptions)
  : Memoized :=
  let maxAge := default (maxAge o) (VNum 0) in
  {| memoizedFunction := fun arguments =>
       async (
         v <- (p <- cache_get (VStr (cacheKey (key o) arguments))
                      (Some {| unserialize := memo_unserialize o |}) ;;
               await p) ;;
         if is_undefined v then
           v <- (p <- invoke func arguments ;; await p) ;;
           floating (cache_set (VStr (cacheKey (key o) arguments)) v maxAge
                       (Some {| serialize := memo_serialize o |})) ;;
           ret (Fulfilled v)
         else ret (Fulfilled v));
     refresh := fun arguments =>
       async (
         v <- (p <- invoke func arguments ;; await p) ;;
         floating (cache_set (VStr (cacheKey (key o) arguments)) v maxAge
                     (Some {| serialize := memo_serialize o |})) ;;
         ret (Fulfilled VUndefined));
     clear := fun arguments =>
       async (
         floating (cache_delete (VStr (cacheKey (key o) arguments))) ;;
         ret (Fulfilled VUndefined)) |}.

(** ** Invalidation fan-out *)

Definition purgeGraphqlCacheForCollective (slug : string) : M (promise value) :=
  async (
    p <- cache_get (VStr ("graphqlCacheKeys_" ++ slug)) None ;;
    then_ p (fun keys =>
      if truthy keys then
        floating (cache_delete (VStr ("graphqlCacheKeys_" ++ slug))) ;;
        match iterate keys with
        | Some l => for_of l (fun key => floating (cache_delete key)) ;; ret VUndefined
        | None => throw (TypeError "keys is not iterable")
        end
      else ret VUndefined)).

Definition call_purgeCacheForPage (path : string) : M (promise value) :=
  fun w =>
    let (r, a') := purgeCacheForPage path (app w) in
    (r, with_app a' (log_pagePurge path w)).

Definition call_invalidateContributorsCache (id : value) : M (promise value) :=
  fun w =>
    let (r, a') := invalidateContributorsCache id (app w) in
    (r, with_app a' (log_contributorsInvalidation id w)).

Definition purgeCacheForCollective (slug : string) : M unit :=
  floating (call_purgeCacheForPage ("/" ++ slug)) ;;
  floating (purgeGraphqlCacheForCollective slug).

Record Account : Type := { slug : string; id : value }.

Definition purgeAllCachesForAccount (account : Account) : M (promise value) :=
  async (
    purgeCacheForCollective (slug account) ;;
    _ <- (p <- call_invalidateContributorsCache (id account) ;; await p) ;;
    ret (Fulfilled VUndefined)).

(** ** Vocabulary of the properties *)

(** The provider method a facade operation delegates to. *)
Definition provider_method (p : Provider) (op : facade_op) : St -> outcome * St :=
  match op with
  | OpClear => p_clear p
  | OpDelete key => p_delete p key
  | OpGet key options => p_get p key options
  | OpHas key => p_has p key
  | OpSet key v ttl options => p_set p key v ttl options
  end.

Definition call_of (op : facade_op) : provider_call :=
  match op with
  | OpClear => PClear
  | OpDelete key => PDelete key
  | OpGet key options => PGet key options
  | OpHas key => PHas key
  | OpSet key v ttl options => PSet key v ttl options
  end.

(** The text of the warning each facade method logs. *)
Definition warning_of (op : facade_op) (err : error) : string :=
  match op with
  | OpClear => "Error while clearing cache: " ++ message err
  | OpDelete _ => "Error while deleting from cache: " ++ message err
  | OpGet _ _ => "Error while fetching from cache: " ++ message err
  | OpHas _ => "Error while checking from cache: " ++ message err
  | OpSet _ _ _ _ => "Error while writing to cache: " ++ message err
  end.

(** The line each facade method hands to [debugCache]. *)
Definition debug_of (op : facade_op) : string :=
  match op with
  | OpClear => "clear"
  | OpDelete key => "delete " ++ toString key
  | OpGet key _ => "get " ++ toString key
  | OpHas key => "has " ++ toString key
  | OpSet key _ _ _ => "set " ++ toString key
  end.

(** The key, options and lifetime a memoized function hands to the facade. *)
Definition memo_key (o : MemoizeOptions) (args : list value) : value :=
  VStr (cacheKey (key o) args).

Definition memo_get_options (o : MemoizeOptions) : option GetOptions :=
  Some {| unserialize := memo_unserialize o |}.

Definition memo_set_options (o : MemoizeOptions) : option SetOptions :=
  Some {| serialize := memo_serialize o |}.

Definition memo_maxAge (o : MemoizeOptions) : value :=
  default (maxAge o) (VNum 0).

(** A lookup of [key] in the provider state [s] yields [undefined]. *)
Definition misses (p : Provider) (key : value) (options : option GetOptions) (s : St)
  : Prop :=
  exists s', p_get p key options s = (Ok (Fulfilled VUndefined), s').

(** [w'] differs from [w] only inside the cache layer: the application state
    and the logs of the other collaborators are the same, and the debug log
    has grown by [lines]. *)
Definition cache_only (w w' : world) (lines : list string) : Prop :=
  app w' = app w /\
  pagePurges w' = pagePurges w /\
  contributorsInvalidations w' = contributorsInvalidations w /\
  debugs w' = (debugs w ++ lines)%list.

(** A call fails with [e]: it throws [e], or the promise it returns is
    rejected with [e]. *)
Definition fails (r : outcome) (e : error) : Prop :=
  r = Thrown e \/ r = Ok (Rejected e).

(** The keys of the delete calls a provider received, in order. *)
Fixpoint deletes (calls : list provider_call) : list value :=
  match calls with
  | [] => []
  | PDelete key :: rest => key :: deletes rest
  | _ :: rest => deletes rest
  end.

Definition is_set (c : provider_call) : bool :=
  match c with
  | PSet _ _ _ _ => true
  | _ => false
  end.

(** What happens in a process over time: a facade call, settled before the
    next event, or a change of the configuration. *)
Inductive event : Type :=
| Call (op : facade_op)
| Reconfigure (c : value).

Definition step (ev : event) (w : world) : world :=
  match ev with
  | Call op => snd (facade op w)
  | Reconfigure c => with_config c w
  end.

Definition run (events : list event) (w : world) : world :=
  fold_left (fun w ev => step ev w) events w.

(** [n] calls of the same function, each settled before the next. *)
Fixpoint repeatedly (n : nat) (f : M (promise value)) (w : world) : world :=
  match n with
  | O => w
  | S n' => repeatedly n' f (snd (f w))
  end.

(** The process before its first facade call. *)
Definition fresh (c : value) (s : St) (a : App) : world :=
  {| config := c; defaultProvider := None; backend := s; app := a;
     debugs := []; warnings := []; providerCalls := []; instantiated := [];
     funcCalls := []; pagePurges := []; contributorsInvalidations := [];
     unhandled := [] |}.

(** The outcome of a call as an [async] caller sees it: an exception has
    become a rejection. *)
Definition settle {A} (r : result (promise A)) : promise A :=
  match r with
  | Ok p => p
  | Thrown e => Rejected e
  end.

(** The provider state after the deletes of [keys], in order. *)
Definition after_deletes (p : Provider) (keys : list value) (s : St) : St :=
  fold_left (fun s key => snd (p_delete p key s)) keys s.

(** ** The collective id lookup *)

(** What [fetchCollectiveId] imports: [models.Collective.findOne], called
    with [{ attributes: ['id'], where: { slug } }] and given here by the
    slug it looks for, and [String.prototype.toLowerCase]. *)
Class Models : Type := {
  toLowerCase : string -> string;
  Collective_findOne : string -> App -> outcome * App;
}.

Context {D : Models}.

Definition call_findOne (slug : string) : M (promise value) :=
  fun w =>
    let (r, a') := Collective_findOne slug (app w) in
    (r, with_app a' w).

Definition fetchCollectiveId (collectiveSlug : string) : M (promise value) :=
  async (
    let cacheKey := VStr ("collective_id_with_slug_" ++ collectiveSlug) in
    collectiveId <- (p <- cache_get cacheKey None ;; await p) ;;
    if truthy collectiveId then ret (Fulfilled collectiveId)
    else
      collective <- (p <- call_findOne (toLowerCase collectiveSlug) ;; await p) ;;
      if truthy collective then
        floating (cache_set cacheKey (prop collective "id") (VNum oneDayInSeconds) None) ;;
        ret (Fulfilled (prop collective "id"))
      else ret (Fulfilled VUndefined)).

End CacheLayer.

(** ** A concrete instance, to run the definitions on *)

Module Sample.

Definition store : Type := list (string * value).

Definition types : Types :=
  {| St := store; App := nat; transform := unit |}.

#[local] Existing Instance types.

Fixpoint remove (k : string) (s : store) : store :=
  match s with
  | [] => []
  | (k', v) :: rest => if String.eqb k k' then remove k rest else (k', v) :: remove k rest
  end.

(** A store keyed by the text of the key, without capacity or expiry. *)
Definition storeProvider : @Provider types :=
  @Build_Provider types
    (* clear *)
    (fun _ => (Ok (Fulfilled VUndefined), []))
    (* delete *)
    (fun k s => (Ok (Fulfilled VUndefined), remove (toString k) s))
    (* get *)
    (fun k _ s => (Ok (Fulfilled (lookup (toString k) s)), s))
    (* has *)
    (fun k s =>
       (Ok (Fulfilled (VBool (existsb (fun e => String.eqb (toString k) (fst e)) s))), s))
    (* set *)
    (fun k v _ _ s =>
       (Ok (Fulfilled VUndefined), (toString k, v) :: remove (toString k) s)).

(** A provider whose every method returns a promise rejected with [e], as an
    [async] method does when its client fails. *)
Definition rejectingProvider (e : error) : @Provider types :=
  @Build_Provider types
    (fun s => (Ok (Rejected e), s))
    (fun _ s => (Ok (Rejected e), s))
    (fun _ _ s => (Ok (Rejected e), s))
    (fun _ s => (Ok (Rejected e), s))
    (fun _ _ _ _ s => (Ok (Rejected e), s)).

(** A provider whose every method throws [e] before returning. *)
Definition throwingProvider (e : error) : @Provider types :=
  @Build_Provider types
    (fun s => (Thrown e, s))
    (fun _ s => (Thrown e, s))
    (fun _ _ s => (Thrown e, s))
    (fun _ s => (Thrown e, s))
    (fun _ _ _ _ s => (Thrown e, s)).

Definition ECONNREFUSED : error := Error "connect ECONNREFUSED 127.0.0.1:6379".

(** The hash is a stand-in that shows the text it is given. *)
Definition imports : @Imports types :=
  @Build_Imports types
    (* makeMemcacheProvider *)
    (fun _ => Ok (Fulfilled (throwingProvider (Error "socket closed"))))
    (* makeRedisProvider *)
    (Ok (Fulfilled (rejectingProvider ECONNREFUSED)))
    (* makeMemoryProvider *)
    (fun _ => Ok (Fulfilled storeProvider))
    (* md5 *)
    (fun s => "#" ++ s)
    (* purgeCacheForPage *)
    (fun path a =>
       if String.eqb path "/down" then (Thrown (Error "cloudflare is not configured"), a)
       else if String.eqb path "/offline" then (Ok (Rejected (Error "ETIMEDOUT")), a)
       else (Ok (Fulfilled VUndefined), a))
    (* invalidateContributorsCache *)
    (fun _ a => (Ok (Fulfilled VUndefined), a)).

#[local] Existing Instance imports.

(** Wrapped functions: one counts its invocations, one returns [undefined],
    one fails. *)
Definition counter (_ : list value) (n : App) : outcome * App :=
  (Ok (Fulfilled (VNum (Z.of_nat n))), S n).

Definition nothing (_ : list value) (n : App) : outcome * App :=
  (Ok (Fulfilled VUndefined), S n).

Definition broken (_ : list value) (n : App) : outcome * App :=
  (Ok (Rejected (Error "database is down")), S n).

Definition noConfig : value := VObj [].

Definition redisConfig : value :=
  VObj [("redis", VObj [("serverUrl", VStr "redis://localhost:6379")]);
        ("memcache", VObj [("servers", VStr "localhost:11211")])].

Definition memcacheConfig : value :=
  VObj [("memcache", VObj [("servers", VStr "localhost:11211")])].

(** A configuration whose property is named by the whole path. *)
Definition flatConfig : value :=
  VObj [("redis.serverUrl", VStr "redis://localhost:6379")].

(** The same, above a [redis] section that has no [serverUrl]. *)
Definition shadowedConfig : value :=
  VObj [("redis", VObj []); ("redis.serverUrl", VStr "redis://localhost:6379")].

Definition acme : store :=
  [("graphqlCacheKeys_acme", VArr [VStr "a"; VStr "b"]);
   ("a", VNum 1); ("b", VNum 2); ("c", VNum 3)].

Definition options (k : string) : @MemoizeOptions types :=
  {| key := k; maxAge := VUndefined; memo_serialize := None; memo_unserialize := None |}.

(** Options with a lifetime of [seconds]. *)
Definition lasting (k : string) (seconds : Z) : @MemoizeOptions types :=
  {| key := k; maxAge := VNum seconds; memo_serialize := None; memo_unserialize := None |}.

(** A process that starts without configuration on the store [acme], and the
    same process with a given provider already resolved. *)
Definition start : world := fresh noConfig acme 0%nat.

Definition resolved (p : Provider) : world :=
  with_defaultProvider (Some (Fulfilled p)) start.

Definition getA : facade_op := OpGet (VStr "a") None.

Definition acmeAccount : Account := {| slug := "acme"; id := VNum 7 |}.

Definition offlineAccount : Account := {| slug := "offline"; id := VNum 8 |}.

Definition downAccount : Account := {| slug := "down"; id := VNum 9 |}.

(** Lower case of ASCII letters. *)
Definition lower (c : ascii) : ascii :=
  let n := nat_of_ascii c in
  if andb (Nat.leb 65 n) (Nat.leb n 90) then ascii_of_nat (n + 32) else c.

Fixpoint lowercase (s : string) : string :=
  match s with
  | EmptyString => EmptyString
  | String c rest => String (lower c) (lowercase rest)
  end.

(** A database with the one collective [acme], of id 42, that counts its
    queries and is out of reach for the slug [offline]. *)
Definition database : @Models types :=
  @Build_Models types
    (* toLowerCase *)
    lowercase
    (* models.Collective.findOne *)
    (fun slug a =>
       if String.eqb slug "acme" then (Ok (Fulfilled (VObj [("id", VNum 42)])), S a)
       else if String.eqb slug "offline" then (Ok (Rejected (Error "database is down")), S a)
       else (Ok (Fulfilled VNull), S a)).

#[local] Existing Instance database.

(** A process whose provider could not be built. *)
Definition outage : world :=
  with_defaultProvider (Some (Rejected ECONNREFUSED)) start.

(** Imports whose Redis factory cannot connect, and a fresh process
    configured for Redis. *)
Definition unreachable : @Imports types :=
  @Build_Imports types
    makeMemcacheProvider
    (Ok (Rejected ECONNREFUSED))
    makeMemoryProvider
    md5
    purgeCacheForPage
    invalidateContributorsCache.

Definition coldRedis : world := fresh redisConfig acme 0%nat.

(** The same process after the id of [Acme] has been stored. *)
Definition warm : world :=
  with_backend (("collective_id_with_slug_Acme", VNum 42) :: acme)
    (resolved storeProvider).

(** A store whose invalidation set is not a list. *)
Definition corrupt : store := [("graphqlCacheKeys_acme", VNum 5); ("a", VNum 1)].

Definition corrupted : world := fresh noConfig corrupt 0%nat.

End Sample.

(** * The user model of [server/models/User.js]: names and roles

    The parts of the model that do not go through the ORM: [User.splitName]
    and the role predicates over [rolesByCollectiveId], with the two
    membership queries of [populateRoles] taken as given.  Ids are integers;
    the [debug] and [logger] lines of these methods are left out. *)

Module User.

(** [s.split(sep)] for a one-character separator, and [tokens.join(sep)]. *)
Fixpoint split (sep : ascii) (s : string) : list string :=
  match s with
  | EmptyString => [EmptyString]
  | String c rest =>
      if Ascii.eqb c sep then EmptyString :: split sep rest
      else
        match split sep rest with
        | [] => [String c EmptyString]
        | token :: tokens => String c token :: tokens
        end
  end.

Definition join (sep : string) (tokens : list string) : string :=
  String.concat sep tokens.

Record Name : Type := { firstName : value; lastName : value }.

Definition splitName (name : value) : result Name :=
  if truthy name then
    match name with
    | VStr s =>
        let tokens := split " " s in
        Ok {| firstName := match tokens with
                           | [] => VUndefined
                           | token :: _ => VStr token
                           end;
              lastName := if Nat.ltb 1 (length tokens)
                          then VStr (join " " (skipn 1 tokens))
                          else VNull |}
    | _ => Thrown (TypeError "name.split is not a function")
    end
  else Ok {| firstName := VNull; lastName := VNull |}.

(** What the role methods import: the role names of [../constants/roles]
    and the platform's conversion of a string to a number, behind
    [Number(x)]. *)
Class Constants : Type := {
  HOST : string;
  ADMIN : string;
  MEMBER : string;
  StringToNumber : string -> option Z;
}.

Section Roles.

Context {C : Constants}.

(** [Number(x)]; [None] stands for [NaN]. *)
Definition Number (x : value) : option Z :=
  match x with
  | VUndefined => None
  | VNull => Some 0%Z
  | VBool true => Some 1%Z
  | VBool false => Some 0%Z
  | VNum n => Some n
  | VStr s => StringToNumber s
  | VArr _ | VObj _ => StringToNumber (toString x)
  end.

(** [a === b] between primitive values. *)
Definition strict_eq (a b : value) : bool :=
  match a, b with
  | VUndefined, VUndefined => true
  | VNull, VNull => true
  | VBool x, VBool y => Bool.eqb x y
  | VNum x, VNum y => Z.eqb x y
  | VStr x, VStr y => String.eqb x y
  | _, _ => false
  end.

(** [x === Number(y)]. *)
Definition is_number (x : value) (n : option Z) : bool :=
  match x, n with
  | VNum a, Some b => Z.eqb a b
  | _, _ => false
  end.

(** One row of the [Members] table, as the queries return it. *)
Record Member : Type := { member_CollectiveId : Z; member_role : string }.

(** [rolesByCollectiveId]: an object from collective ids to arrays of role
    names. *)
Definition Roles : Type := list (Z * list string).

Fixpoint roles_of (c : Z) (m : Roles) : list string :=
  match m with
  | [] => []
  | (c', rs) :: rest => if Z.eqb c c' then rs else roles_of c rest
  end.

(** [m[c] = m[c] || []; m[c].push(r)]. *)
Fixpoint push_role (c : Z) (r : string) (m : Roles) : Roles :=
  match m with
  | [] => [(c, [r])]
  | (c', rs) :: rest =>
      if Z.eqb c c' then (c', (rs ++ [r])%list) :: rest
      else (c', rs) :: push_role c r rest
  end.

Record user : Type := {
  CollectiveId : value;                 (* a number, or [null] *)
  rolesByCollectiveId : option Roles;   (* [None] until populated *)
}.

Inductive roles_arg : Type :=
| One (role : string)
| Many (roles : list string).

(** lodash [intersection(a, b).length > 0]. *)
Definition intersects (a b : list string) : bool :=
  existsb (fun x => existsb (String.eqb x) b) a.

Definition hasRole (roles : roles_arg) (collectiveId : value) (this : user) : bool :=
  if negb (truthy collectiveId) then false
  else if is_number (CollectiveId this) (Number collectiveId) then true
  else
    match rolesByCollectiveId this with
    | None => false
    | Some byId =>
        let roles := match roles with
                     | One role => [role]
                     | Many roles => roles
                     end in
        intersects
          (match Number collectiveId with
           | Some n => roles_of n byId
           | None => []
           end)
          roles
    end.

Definition isAdmin (collectiveId : value) (this : user) : bool :=
  is_number (CollectiveId this) (Number collectiveId)
  || hasRole (Many [HOST; ADMIN]) collectiveId this.

Definition isRoot (this : user) : bool :=
  hasRole (Many [ADMIN]) (VNum 1) this.

Definition isMember (collectiveId : value) (this : user) : bool :=
  strict_eq (CollectiveId this) collectiveId
  || hasRole (Many [HOST; ADMIN; MEMBER]) collectiveId this.

(** The two queries of [populateRoles]: the memberships of the user's own
    collective, and the [HOST] memberships of the collectives it
    administers. *)
Variable findMemberships : value -> promise (list Member).
Variable findHostMemberships : list Z -> promise (list Member).

Definition record_memberships (rows : list Member) (start : Roles * list Z)
  : Roles * list Z :=
  fold_left
    (fun acc m =>
       let '(byId, adminOf) := acc in
       (push_role (member_CollectiveId m) (member_role m) byId,
        if String.eqb (member_role m) ADMIN
        then (adminOf ++ [member_CollectiveId m])%list
        else adminOf))
    rows start.

Definition record_hosted (rows : list Member) (byId : Roles) : Roles :=
  fold_left (fun byId m => push_role (member_CollectiveId m) ADMIN byId) rows byId.

Definition populateRoles (this : user) : promise user :=
  match rolesByCollectiveId this with
  | Some _ => Fulfilled this
  | None =>
      match findMemberships (CollectiveId this) with
      | Rejected e => Rejected e
      | Fulfilled memberships =>
          let '(byId, adminOf) := record_memberships memberships ([], []) in
          match adminOf with
          | [] =>
              Fulfilled {| CollectiveId := CollectiveId this;
                           rolesByCollectiveId := Some byId |}
          | _ :: _ =>
              match findHostMemberships adminOf with
              | Rejected e => Rejected e
              | Fulfilled hostedMemberships =>
                  Fulfilled {| CollectiveId := CollectiveId this;
                               rolesByCollectiveId :=
                                 Some (record_hosted hostedMemberships byId) |}
              end
          end
      end
  end.

(** The collectives a list of memberships makes the user an admin of. *)
Definition admin_ids (rows : list Member) : list Z :=
  map member_CollectiveId
    (filter (fun m => String.eqb (member_role m) ADMIN) rows).

End Roles.

(** Role names and a number parser to run the examples with. *)
Definition sampleConstants : Constants :=
  {| HOST := "HOST"; ADMIN := "ADMIN"; MEMBER := "MEMBER";
     StringToNumber := fun s =>
       if String.eqb s "7" then Some 7%Z
       else if String.eqb s "" then Some 0%Z
       else None |}.

(** A user of collective 7: a backer of 10 and an admin of the host 20,
    which hosts 30. *)
Definition sampleMemberships (_ : value) : promise (list Member) :=
  Fulfilled [ {| member_CollectiveId := 10; member_role := "BACKER" |};
              {| member_CollectiveId := 20; member_role := "ADMIN" |} ].

Definition sampleHosted (_ : list Z) : promise (list Member) :=
  Fulfilled [ {| member_CollectiveId := 30; member_role := "HOST" |} ].

Definition sampleUser : user :=
  {| CollectiveId := VNum 7; rolesByCollectiveId := None |}.

(** The sample user once populated: admin of the host 20, hence of 30. *)
Definition populatedUser : user :=
  {| CollectiveId := VNum 7;
     rolesByCollectiveId := Some [(10%Z, ["BACKER"]); (20%Z, ["ADMIN"]); (30%Z, ["ADMIN"])] |}.

End User.

(** * Properties *)

Section Properties.

Context {T : Types} {I : Imports}.

(** ** Provider resolution *)

Lemma getProvider_returns (providerType : value) (w : world) :
  exists p w', getProvider providerType w = (Ok p, w').
Proof.
  unfold getProvider, async, bind, read, modify, call, throw.
  destruct (strict_eq_str providerType PROVIDER_TYPES.MEMCACHE).
  { cbn. destruct (makeMemcacheProvider _); eauto. }
  destruct (strict_eq_str providerType PROVIDER_TYPES.REDIS).
  { cbn. destruct makeRedisProvider; eauto. }
  destruct (strict_eq_str providerType PROVIDER_TYPES.MEMORY).
  { cbn. destruct (makeMemoryProvider _); eauto. }
  eauto.
Qed.

(** Once the module variable holds a promise, it is handed out as it is. *)
Lemma getDefaultProvider_resolved (w : world) (p : promise Provider) :
  defaultProvider w = Some p ->
  getDefaultProvider w = (Ok p, w).
Proof.
  intros H. unfold getDefaultProvider, bind, read, ret. now rewrite H.
Qed.

(** The type picked by the configuration is a supported one. *)
Lemma default_type_supported (c : value) :
  getDefaultProviderType c = PROVIDER_TYPES.REDIS \/
  getDefaultProviderType c = PROVIDER_TYPES.MEMCACHE \/
  getDefaultProviderType c = PROVIDER_TYPES.MEMORY.
Proof.
  unfold getDefaultProviderType.
  destruct (truthy (get c ["redis"; "serverUrl"])); auto.
  destruct (truthy (get c ["memcache"; "servers"])); auto.
Qed.

(** The first resolution calls one factory, the one of the configured type,
    and stores the promise. *)
Lemma getDefaultProvider_first (w : world) :
  defaultProvider w = None ->
  exists p,
    getDefaultProvider w =
      (Ok p, with_defaultProvider (Some p)
               (log_instantiated (getDefaultProviderType (config w)) w)).
Proof.
  intros H. unfold getDefaultProvider, bind, read, ret. rewrite H.
  unfold getProvider, async, bind, read, modify, call, throw.
  destruct (default_type_supported (config w)) as [E | [E | E]]; rewrite E; cbn.
  - destruct makeRedisProvider; eauto.
  - destruct (makeMemcacheProvider _); eauto.
  - destruct (makeMemoryProvider _); eauto.
Qed.

Lemma getDefaultProvider_cases (w : world) :
  exists p w1,
    getDefaultProvider w = (Ok p, w1) /\ defaultProvider w1 = Some p /\
    (w1 = w \/
     defaultProvider w = None /\
     w1 = with_defaultProvider (Some p)
            (log_instantiated (getDefaultProviderType (config w)) w)).
Proof.
  destruct (defaultProvider w) as [p |] eqn:E.
  - exists p, w. rewrite (getDefaultProvider_resolved _ _ E). auto.
  - destruct (getDefaultProvider_first _ E) as [p Hp].
    exists p. eexists. split; [exact Hp |]. split; [reflexivity |]. right. auto.
Qed.

(** ** The facade *)

(** The five methods have one shape: what each does is fixed by the promise
    [getDefaultProvider] hands out and by the provider method it calls. *)
Lemma facade_run (op : facade_op) (w w1 : world) (pp : promise Provider) :
  getDefaultProvider (log_debug (debug_of op) w) = (Ok pp, w1) ->
  facade op w =
    match pp with
    | Rejected e => (Ok (Fulfilled VUndefined), log_warning (warning_of op e) w1)
    | Fulfilled provider =>
        match provider_method provider op (backend w1) with
        | (Ok q, s') => (Ok q, with_backend s' (log_providerCall (call_of op) w1))
        | (Thrown e, s') =>
            (Ok (Fulfilled VUndefined),
             log_warning (warning_of op e)
               (with_backend s' (log_providerCall (call_of op) w1)))
        end
    end.
Proof.
  intros H.
  destruct op; cbn [facade debug_of] in *;
    unfold cache_clear, cache_delete, cache_get, cache_has, cache_set,
      async, try_catch, bind, debugCache, logger_warn, modify, delegate;
    rewrite H; destruct pp as [provider | e]; cbn;
    try reflexivity;
    match goal with
    | |- context [?f (backend w1)] => destruct (f (backend w1)) as [[q | e] s']
    end; reflexivity.
Qed.

(** A facade call never throws to its caller: it returns a promise. *)
Lemma facade_returns (op : facade_op) (w : world) :
  exists p w', facade op w = (Ok p, w').
Proof.
  destruct (getDefaultProvider_cases (log_debug (debug_of op) w))
    as (pp & w1 & H & _).
  rewrite (facade_run _ _ _ _ H).
  destruct pp as [provider | e]; [| eauto].
  destruct (provider_method provider op (backend w1)) as [[q | e] s']; eauto.
Qed.

(** With the provider resolved, the call is delegated to it. *)
Lemma facade_delegates (op : facade_op) (w : world) (provider : Provider) :
  defaultProvider w = Some (Fulfilled provider) ->
  facade op w =
    match provider_method provider op (backend w) with
    | (Ok q, s') =>
        (Ok q, with_backend s' (log_providerCall (call_of op) (log_debug (debug_of op) w)))
    | (Thrown e, s') =>
        (Ok (Fulfilled VUndefined),
         log_warning (warning_of op e)
           (with_backend s' (log_providerCall (call_of op) (log_debug (debug_of op) w))))
    end.
Proof.
  intros H.
  apply (facade_run op w (log_debug (debug_of op) w) (Fulfilled provider)).
  now apply getDefaultProvider_resolved.
Qed.

(** X20: an exception thrown by the provider method is caught: a warning is
    logged and the facade call fulfils with [undefined]. *)
Lemma facade_catches_throw (op : facade_op) (w : world) (provider : Provider)
    (e : error) (s' : St) :
  defaultProvider w = Some (Fulfilled provider) ->
  provider_method provider op (backend w) = (Thrown e, s') ->
  exists w',
    facade op w = (Ok (Fulfilled VUndefined), w') /\
    warnings w' = (warnings w ++ [warning_of op e])%list.
Proof.
  intros H Hm. rewrite (facade_delegates _ _ _ H), Hm.
  eexists. split; reflexivity.
Qed.

(** A provider that could not be built is caught in the same way. *)
Lemma facade_catches_resolution_failure (op : facade_op) (w : world) (e : error) :
  defaultProvider w = Some (Rejected e) ->
  facade op w =
    (Ok (Fulfilled VUndefined),
     log_warning (warning_of op e) (log_debug (debug_of op) w)).
Proof.
  intros H.
  apply (facade_run op w (log_debug (debug_of op) w) (Rejected e)).
  now apply getDefaultProvider_resolved.
Qed.

(** C1 (as the code runs): the provider method is called inside [try] but its
    promise is returned without [await], so a rejection of that promise
    happens outside the error boundary: the facade call rejects with the
    provider's error and no warning is logged. *)
Theorem C1_rejection_escapes_facade (op : facade_op) (w : world)
    (provider : Provider) (e : error) (s' : St) :
  defaultProvider w = Some (Fulfilled provider) ->
  provider_method provider op (backend w) = (Ok (Rejected e), s') ->
  exists w',
    facade op w = (Ok (Rejected e), w') /\
    warnings w' = warnings w.
Proof.
  intros H Hm. rewrite (facade_delegates _ _ _ H), Hm.
  eexists. split; reflexivity.
Qed.

(** Case analysis of a facade call: the promise handed out, whether it was
    just created, and what the provider method did. *)
Ltac facade_cases op w :=
  let pp := fresh "pp" in
  let w1 := fresh "w1" in
  let Hg := fresh "Hg" in
  let Hd := fresh "Hd" in
  let Hw := fresh "Hw" in
  let Hn := fresh "Hn" in
  destruct (getDefaultProvider_cases (log_debug (debug_of op) w))
    as (pp & w1 & Hg & Hd & [Hw | [Hn Hw]]);
  rewrite (facade_run op w w1 pp Hg);
  (destruct pp as [? | ?];
   [ let q := fresh "q" in
     let e := fresh "e" in
     let s' := fresh "s'" in
     match goal with
     | |- context [provider_method ?p op (backend w1)] =>
         destruct (provider_method p op (backend w1)) as [[q | e] s']
     end
   | ]);
  subst w1; cbn in *.

(** What a facade call leaves alone, and the one debug line it writes. *)
Lemma facade_frame (op : facade_op) (w : world) :
  let w' := snd (facade op w) in
  config w' = config w /\ app w' = app w /\ funcCalls w' = funcCalls w /\
  pagePurges w' = pagePurges w /\
  contributorsInvalidations w' = contributorsInvalidations w /\
  unhandled w' = unhandled w /\
  debugs w' = (debugs w ++ [debug_of op])%list.
Proof.
  facade_cases op w; repeat split; reflexivity.
Qed.

(** A facade call leaves a promise in the module variable. *)
Lemma facade_resolves (op : facade_op) (w : world) :
  exists p, defaultProvider (snd (facade op w)) = Some p.
Proof.
  facade_cases op w; eauto.
Qed.

(** A promise already there stays, and no factory is called. *)
Lemma facade_keeps_provider (op : facade_op) (w : world) (p : promise Provider) :
  defaultProvider w = Some p ->
  defaultProvider (snd (facade op w)) = Some p /\
  instantiated (snd (facade op w)) = instantiated w.
Proof.
  intros H. facade_cases op w; try congruence; split; congruence.
Qed.

(** A facade call invokes at most one factory. *)
Lemma facade_instantiates_at_most_one (op : facade_op) (w : world) :
  (length (instantiated (snd (facade op w))) <= length (instantiated w) + 1)%nat.
Proof.
  facade_cases op w; rewrite ?length_app; cbn; lia.
Qed.

(** The calls the provider receives from one facade call: none when the
    provider could not be built, else the delegated one. *)
Lemma facade_calls (op : facade_op) (w : world) :
  providerCalls (snd (facade op w)) = providerCalls w \/
  providerCalls (snd (facade op w)) = (providerCalls w ++ [call_of op])%list.
Proof.
  facade_cases op w; auto.
Qed.

Lemma step_keeps_provider (ev : event) (w : world) (p : promise Provider) :
  defaultProvider w = Some p ->
  defaultProvider (step ev w) = Some p /\ instantiated (step ev w) = instantiated w.
Proof.
  intros H. destruct ev as [op | c]; cbn.
  - now apply facade_keeps_provider.
  - auto.
Qed.

Lemma run_keeps_provider (events : list event) (w : world) (p : promise Provider) :
  defaultProvider w = Some p ->
  defaultProvider (run events w) = Some p /\ instantiated (run events w) = instantiated w.
Proof.
  revert w. induction events as [| ev events IH]; intros w H; cbn.
  - auto.
  - destruct (step_keeps_provider ev w p H) as [Hd Hi].
    destruct (IH (step ev w) Hd) as [Hd' Hi'].
    fold (run events (step ev w)). split; congruence.
Qed.

Lemma run_instantiates_at_most_one (events : list event) (w : world) :
  (length (instantiated (run events w)) <= length (instantiated w) + 1)%nat.
Proof.
  revert w. induction events as [| ev events IH]; intros w; cbn.
  - lia.
  - fold (run events (step ev w)).
    destruct ev as [op | c].
    + cbn [step].
      destruct (facade_resolves op w) as [p Hp].
      destruct (run_keeps_provider events _ p Hp) as [_ Hi]. rewrite Hi.
      apply facade_instantiates_at_most_one.
    + apply (IH (step (Reconfigure c) w)).
Qed.

(** C6: the default provider type follows the configuration in strict
    precedence: a truthy [redis.serverUrl] gives REDIS; otherwise a truthy
    [memcache.servers] gives MEMCACHE; otherwise MEMORY. *)
Theorem C6_default_provider_type (c : value) :
  (truthy (get c ["redis"; "serverUrl"]) = true ->
   getDefaultProviderType c = PROVIDER_TYPES.REDIS) /\
  (truthy (get c ["redis"; "serverUrl"]) = false ->
   truthy (get c ["memcache"; "servers"]) = true ->
   getDefaultProviderType c = PROVIDER_TYPES.MEMCACHE) /\
  (truthy (get c ["redis"; "serverUrl"]) = false ->
   truthy (get c ["memcache"; "servers"]) = false ->
   getDefaultProviderType c = PROVIDER_TYPES.MEMORY).
Proof.
  unfold getDefaultProviderType.
  repeat split; intros; repeat
    match goal with
    | H : truthy _ = _ |- _ => rewrite H; clear H
    end; reflexivity.
Qed.

(** C7: the default provider is a singleton of the process.  After a first
    facade call the module variable holds a promise; whatever facade calls
    and configuration changes follow, it holds that same promise, no factory
    is invoked again, and every later call is delegated to the provider that
    promise was fulfilled with.  A process invokes a factory at most once. *)
Theorem C7_default_provider_singleton (op : facade_op) (w : world)
    (events : list event) :
  let w1 := snd (facade op w) in
  let w2 := run events w1 in
  (exists p,
     defaultProvider w1 = Some p /\
     defaultProvider w2 = Some p /\
     instantiated w2 = instantiated w1 /\
     forall provider op',
       p = Fulfilled provider ->
       fst (facade op' w2) =
         match provider_method provider op' (backend w2) with
         | (Ok q, _) => Ok q
         | (Thrown _, _) => Ok (Fulfilled VUndefined)
         end) /\
  (forall c s a,
     (length (instantiated (run (Call op :: events) (fresh c s a))) <= 1)%nat).
Proof.
  cbn zeta. split.
  - destruct (facade_resolves op w) as [p Hp]. exists p.
    destruct (run_keeps_provider events _ p Hp) as [Hd Hi].
    repeat split; try assumption.
    intros provider op' ->.
    rewrite (facade_delegates _ _ _ Hd).
    now destruct (provider_method provider op' _) as [[q | e] s'].
  - intros c s a.
    apply (run_instantiates_at_most_one (Call op :: events) (fresh c s a)).
Qed.


(** ** Memoization *)

(** A facade call whose promise is dropped: the effects are those of the
    call, and a rejection lands with the unhandled ones. *)
Lemma floating_facade (op : facade_op) (w : world) :
  floating (facade op) w =
    (Ok tt,
     match fst (facade op w) with
     | Ok (Rejected e) => log_unhandled e (snd (facade op w))
     | _ => snd (facade op w)
     end).
Proof.
  destruct (facade_returns op w) as (p & w' & H).
  unfold floating, bind. rewrite H. now destruct p.
Qed.

Lemma floating_facade_frame (op : facade_op) (w : world) :
  exists w',
    floating (facade op) w = (Ok tt, w') /\
    config w' = config w /\ app w' = app w /\ funcCalls w' = funcCalls w /\
    pagePurges w' = pagePurges w /\
    contributorsInvalidations w' = contributorsInvalidations w /\
    debugs w' = (debugs w ++ [debug_of op])%list /\
    defaultProvider w' = defaultProvider (snd (facade op w)) /\
    instantiated w' = instantiated (snd (facade op w)) /\
    providerCalls w' = providerCalls (snd (facade op w)) /\
    backend w' = backend (snd (facade op w)) /\
    warnings w' = warnings (snd (facade op w)).
Proof.
  rewrite floating_facade. eexists. split; [reflexivity |].
  destruct (facade_frame op w) as (H1 & H2 & H3 & H4 & H5 & H6 & H7).
  destruct (fst (facade op w)) as [[v | e] | e]; cbn; repeat split; assumption.
Qed.

(** With the provider resolved, a dropped facade call still reaches the
    provider: it receives the call, and its state is the one the method
    leaves. *)
Lemma floating_facade_delegates (op : facade_op) (w : world) (provider : Provider) :
  defaultProvider w = Some (Fulfilled provider) ->
  exists w',
    floating (facade op) w = (Ok tt, w') /\
    defaultProvider w' = Some (Fulfilled provider) /\
    providerCalls w' = (providerCalls w ++ [call_of op])%list /\
    backend w' = snd (provider_method provider op (backend w)) /\
    funcCalls w' = funcCalls w /\ app w' = app w /\
    debugs w' = (debugs w ++ [debug_of op])%list.
Proof.
  intros H. rewrite floating_facade, (facade_delegates _ _ _ H).
  eexists. split; [reflexivity |].
  destruct (provider_method provider op (backend w)) as [[[v | e] | e] s'];
    cbn; repeat split; assumption.
Qed.

(** A facade read that yields something other than [undefined] went through
    a resolved provider. *)
Lemma facade_value_resolved (op : facade_op) (w w1 : world) (v : value) :
  facade op w = (Ok (Fulfilled v), w1) ->
  is_undefined v = false ->
  exists provider, defaultProvider w1 = Some (Fulfilled provider).
Proof.
  intros H Hv. revert H.
  facade_cases op w; intros H; inversion H; subst; cbn in *;
    try discriminate; eauto.
Qed.

(** The three functions [memoize] builds, over the facade. *)
Lemma memoizedFunction_eq (func : list value -> App -> outcome * App)
    (o : MemoizeOptions) (args : list value) (w : world) :
  memoizedFunction (memoize func o) args w =
    match facade (OpGet (memo_key o args) (memo_get_options o)) w with
    | (Ok (Fulfilled v), w1) =>
        if is_undefined v then
          match func args (app w1) with
          | (Ok (Fulfilled v'), a') =>
              (Ok (Fulfilled v'),
               snd (floating
                      (facade (OpSet (memo_key o args) v' (memo_maxAge o)
                                 (memo_set_options o)))
                      (with_app a' (log_funcCall args w1))))
          | (Ok (Rejected e), a') | (Thrown e, a') =>
              (Ok (Rejected e), with_app a' (log_funcCall args w1))
          end
        else (Ok (Fulfilled v), w1)
    | (Ok (Rejected e), w1) | (Thrown e, w1) => (Ok (Rejected e), w1)
    end.
Proof.
  cbn [memoize memoizedFunction facade].
  unfold async at 1. unfold bind at 1. unfold bind at 1.
  fold (memo_key o args) (memo_get_options o) (memo_set_options o) (memo_maxAge o).
  destruct (cache_get (memo_key o args) (memo_get_options o) w) as [[[v | e] | e] w1];
    cbn; try reflexivity.
  destruct (is_undefined v); [| reflexivity].
  unfold bind at 1. unfold bind at 1. unfold invoke.
  destruct (func args (app w1)) as [[[v' | e] | e] a']; cbn; try reflexivity.
  change (cache_set (memo_key o args) v' (memo_maxAge o) (memo_set_options o))
    with (facade (OpSet (memo_key o args) v' (memo_maxAge o) (memo_set_options o))).
  unfold bind. rewrite floating_facade. reflexivity.
Qed.

Lemma refresh_eq (func : list value -> App -> outcome * App)
    (o : MemoizeOptions) (args : list value) (w : world) :
  refresh (memoize func o) args w =
    match func args (app w) with
    | (Ok (Fulfilled v), a') =>
        (Ok (Fulfilled VUndefined),
         snd (floating
                (facade (OpSet (memo_key o args) v (memo_maxAge o)
                           (memo_set_options o)))
                (with_app a' (log_funcCall args w))))
    | (Ok (Rejected e), a') | (Thrown e, a') =>
        (Ok (Rejected e), with_app a' (log_funcCall args w))
    end.
Proof.
  cbn [memoize refresh].
  unfold async at 1. unfold bind at 1. unfold bind at 1. unfold invoke.
  fold (memo_key o args) (memo_set_options o) (memo_maxAge o).
  destruct (func args (app w)) as [[[v | e] | e] a']; cbn; try reflexivity.
  change (cache_set (memo_key o args) v (memo_maxAge o) (memo_set_options o))
    with (facade (OpSet (memo_key o args) v (memo_maxAge o) (memo_set_options o))).
  unfold bind. rewrite floating_facade. reflexivity.
Qed.

Lemma clear_eq (func : list value -> App -> outcome * App)
    (o : MemoizeOptions) (args : list value) (w : world) :
  clear (memoize func o) args w =
    (Ok (Fulfilled VUndefined),
     snd (floating (facade (OpDelete (memo_key o args))) w)).
Proof.
  cbn [memoize clear]. unfold async, bind.
  fold (memo_key o args).
  change (cache_delete (memo_key o args)) with (facade (OpDelete (memo_key o args))).
  rewrite floating_facade. reflexivity.
Qed.

(** The lifetime handed to the facade: the [maxAge] given, and 0 when none
    is. *)
Lemma memo_maxAge_eq (o : MemoizeOptions) :
  memo_maxAge o =
    match maxAge o with
    | VUndefined => VNum 0
    | seconds => seconds
    end.
Proof.
  unfold memo_maxAge, default. now destruct (maxAge o).
Qed.

(** C3: when the lookup of the fingerprinted key yields a value other than
    [undefined], the memoized function returns it and the wrapped function is
    not invoked; when the lookup yields [undefined], the wrapped function is
    invoked with the same arguments, its result is handed to the facade's
    [set] under the fingerprinted key, with the [maxAge] given as lifetime
    (0 when none is given) and the [serialize] given as option: the
    provider, when resolved, receives exactly that call; and the fresh
    result is returned. *)
Theorem C3_memoized_hit_and_miss (func : list value -> App -> outcome * App)
    (o : MemoizeOptions) (args : list value) (w w1 : world) (v : value) :
  cache_get (VStr (cacheKey (key o) args))
    (Some {| unserialize := memo_unserialize o |}) w = (Ok (Fulfilled v), w1) ->
  (is_undefined v = false ->
   memoizedFunction (memoize func o) args w = (Ok (Fulfilled v), w1) /\
   funcCalls w1 = funcCalls w) /\
  (is_undefined v = true ->
   forall v' a',
     func args (app w1) = (Ok (Fulfilled v'), a') ->
     exists w',
       memoizedFunction (memoize func o) args w = (Ok (Fulfilled v'), w') /\
       funcCalls w' = (funcCalls w ++ [args])%list /\
       app w' = a' /\
       debugs w' = (debugs w1 ++ [("set " ++ cacheKey (key o) args)%string])%list /\
       forall provider,
         defaultProvider w1 = Some (Fulfilled provider) ->
         providerCalls w' =
           (providerCalls w1 ++
            [PSet (VStr (cacheKey (key o) args)) v'
               match maxAge o with
               | VUndefined => VNum 0
               | seconds => seconds
               end
               (Some {| serialize := memo_serialize o |})])%list /\
         backend w' =
           snd (p_set provider (VStr (cacheKey (key o) args)) v'
                  match maxAge o with
                  | VUndefined => VNum 0
                  | seconds => seconds
                  end
                  (Some {| serialize := memo_serialize o |}) (backend w1))).
Proof.
  rewrite <- memo_maxAge_eq.
  fold (memo_key o args) (memo_get_options o) (memo_set_options o).
  intros H.
  change (cache_get (memo_key o args) (memo_get_options o))
    with (facade (OpGet (memo_key o args) (memo_get_options o))) in H.
  pose proof (facade_frame (OpGet (memo_key o args) (memo_get_options o)) w) as F.
  rewrite H in F. cbn [snd] in F. destruct F as (_ & _ & Hf & _).
  split; intros Hv.
  - rewrite memoizedFunction_eq, H, Hv. auto.
  - intros v' a' Hfunc.
    rewrite memoizedFunction_eq, H, Hv, Hfunc.
    eexists. split; [reflexivity |].
    set (w2 := with_app a' (log_funcCall args w1)).
    set (op := OpSet (memo_key o args) v' (memo_maxAge o) (memo_set_options o)).
    destruct (floating_facade_frame op w2)
      as (w' & Hw' & _ & Ha & Hc & _ & _ & Hdbg & _).
    rewrite Hw'. cbn [snd].
    split; [rewrite Hc; subst w2; cbn; now rewrite Hf |].
    split; [exact Ha |].
    split; [exact Hdbg |].
    intros provider Hp.
    destruct (floating_facade_delegates op w2 provider Hp)
      as (w'' & Hw'' & _ & Hcalls & Hb & _).
    rewrite Hw' in Hw''. inversion Hw''; subst w''. split; assumption.
Qed.

(** What the provider receives after a miss: nothing when the wrapped
    function fails, else the one [set] of its result. *)
Lemma miss_calls (func : list value -> App -> outcome * App)
    (o : MemoizeOptions) (args : list value) (w1 : world) (provider : Provider) :
  defaultProvider w1 = Some (Fulfilled provider) ->
  forall r,
    r = match func args (app w1) with
        | (Ok (Fulfilled v'), a') =>
            (Ok (Fulfilled v'),
             snd (floating
                    (facade (OpSet (memo_key o args) v' (memo_maxAge o)
                               (memo_set_options o)))
                    (with_app a' (log_funcCall args w1))))
        | (Ok (Rejected e), a') | (Thrown e, a') =>
            (Ok (Rejected e : promise value), with_app a' (log_funcCall args w1))
        end ->
    exists rest,
      providerCalls (snd r) = (providerCalls w1 ++ rest)%list /\
      (rest = [] \/
       exists v',
         rest = [PSet (memo_key o args) v' (memo_maxAge o) (memo_set_options o)]).
Proof.
  intros Hp r ->.
  destruct (func args (app w1)) as [[[v' | e] | e] a']; cbn [snd];
    try (exists []; rewrite app_nil_r; auto; fail).
  set (w2 := with_app a' (log_funcCall args w1)).
  destruct (floating_facade_delegates
              (OpSet (memo_key o args) v' (memo_maxAge o) (memo_set_options o))
              w2 provider Hp) as (w' & Hw' & _ & Hcalls & _).
  rewrite Hw'. eexists. split; [exact Hcalls |]. right. now exists v'.
Qed.

(** C4 (amended): without arguments the cache key is [key] itself; with
    arguments it is [key], an underscore and the md5 of the JSON text of the
    [arguments] object of the call, an object keyed by the indices of the
    arguments and not an array: the text opens with a brace, and is never
    the JSON text of the array of the arguments.  The memoized function,
    [refresh] and [clear] all hand the facade the key computed by this rule:
    with the provider resolved, every call it receives from them carries
    it. *)
Theorem C4_cache_key_rule (func : list value -> App -> outcome * App)
    (o : MemoizeOptions) (args : list value) (w : world) (provider : Provider) :
  cacheKey (key o) [] = key o /\
  (args <> [] ->
   exists members,
     JSON_stringify (arguments_object args) = Some ("{" ++ members ++ "}") /\
     cacheKey (key o) args = key o ++ "_" ++ md5 ("{" ++ members ++ "}") /\
     JSON_stringify (VArr args) <> Some ("{" ++ members ++ "}")) /\
  (defaultProvider w = Some (Fulfilled provider) ->
   let k := VStr (cacheKey (key o) args) in
   (exists rest,
      providerCalls (snd (memoizedFunction (memoize func o) args w)) =
        (providerCalls w ++ PGet k (memo_get_options o) :: rest)%list /\
      (rest = [] \/
       exists v, rest = [PSet k v (memo_maxAge o) (memo_set_options o)])) /\
   (forall v a',
      func args (app w) = (Ok (Fulfilled v), a') ->
      providerCalls (snd (refresh (memoize func o) args w)) =
        (providerCalls w ++ [PSet k v (memo_maxAge o) (memo_set_options o)])%list) /\
   providerCalls (snd (clear (memoize func o) args w)) =
     (providerCalls w ++ [PDelete k])%list).
Proof.
  split; [reflexivity |].
  split.
  { intros Hargs. unfold cacheKey.
    destruct args as [| a args]; [congruence |]. cbn [length].
    unfold arguments_object. cbn [JSON_stringify].
    eexists. split; [reflexivity |]. split; [reflexivity |]. discriminate. }
  intros Hp k. fold (memo_key o args) in k. subst k.
  split; [| split].
  - rewrite memoizedFunction_eq.
    set (get := OpGet (memo_key o args) (memo_get_options o)).
    rewrite (facade_delegates get w provider Hp).
    destruct (provider_method provider get (backend w)) as [[[v | e] | e] s'];
      [destruct (is_undefined v) | | cbn [is_undefined]];
      try (exists []; cbn; auto; fail);
      match goal with
      | |- context [func args (app ?w1)] =>
          destruct (miss_calls func o args w1 provider Hp _ eq_refl)
            as (rest & E & Hrest)
      end;
      exists rest; (split; [| exact Hrest]);
      rewrite E; cbn; rewrite <- app_assoc; reflexivity.
  - intros v a' Hfunc. rewrite refresh_eq, Hfunc.
    set (w2 := with_app a' (log_funcCall args w)).
    destruct (floating_facade_delegates
                (OpSet (memo_key o args) v (memo_maxAge o) (memo_set_options o))
                w2 provider Hp) as (w' & Hw' & _ & Hcalls & _).
    rewrite Hw'. exact Hcalls.
  - rewrite clear_eq.
    destruct (floating_facade_delegates (OpDelete (memo_key o args)) w provider Hp)
      as (w' & Hw' & _ & Hcalls & _).
    rewrite Hw'. exact Hcalls.
Qed.

(** C5: when the wrapped function fails, by throwing or by a rejected
    promise, the memoized function (on a miss) and [refresh] reject with that
    very error; the facade's [set] is not called, so the provider receives
    nothing after the lookup and its state is the one the lookup left. *)
Theorem C5_wrapped_failure_propagates (func : list value -> App -> outcome * App)
    (o : MemoizeOptions) (args : list value) (w : world) (e : error) :
  (forall w1 r a',
     cache_get (memo_key o args) (memo_get_options o) w = (Ok (Fulfilled VUndefined), w1) ->
     func args (app w1) = (r, a') ->
     fails r e ->
     exists w',
       memoizedFunction (memoize func o) args w = (Ok (Rejected e), w') /\
       backend w' = backend w1 /\
       providerCalls w' = providerCalls w1 /\
       debugs w' = debugs w1 /\
       (providerCalls w' = providerCalls w \/
        providerCalls w' =
          (providerCalls w ++ [PGet (memo_key o args) (memo_get_options o)])%list)) /\
  (forall r a',
     func args (app w) = (r, a') ->
     fails r e ->
     exists w',
       refresh (memoize func o) args w = (Ok (Rejected e), w') /\
       backend w' = backend w /\
       providerCalls w' = providerCalls w /\
       debugs w' = debugs w).
Proof.
  split.
  - intros w1 r a' Hget Hfunc Hfail.
    change (cache_get (memo_key o args) (memo_get_options o))
      with (facade (OpGet (memo_key o args) (memo_get_options o))) in Hget.
    pose proof (facade_calls (OpGet (memo_key o args) (memo_get_options o)) w) as Hc.
    rewrite Hget in Hc. cbn [snd call_of] in Hc.
    rewrite memoizedFunction_eq, Hget. cbn [is_undefined]. rewrite Hfunc.
    destruct Hfail as [-> | ->]; eexists; (split; [reflexivity |]); cbn; auto.
  - intros r a' Hfunc Hfail.
    rewrite refresh_eq, Hfunc.
    destruct Hfail as [-> | ->]; eexists; (split; [reflexivity |]); cbn; auto.
Qed.

(** X19 (the second source of C3): once the result of a miss is stored and
    the provider gives it back, the next call returns it without invoking
    the wrapped function again. *)
Lemma memoized_second_call_hits (func : list value -> App -> outcome * App)
    (o : MemoizeOptions) (args : list value) (w : world) (provider : Provider)
    (v : value) (s1 s2 s3 : St) (a' : App) (r : outcome) :
  defaultProvider w = Some (Fulfilled provider) ->
  p_get provider (memo_key o args) (memo_get_options o) (backend w) =
    (Ok (Fulfilled VUndefined), s1) ->
  func args (app w) = (Ok (Fulfilled v), a') ->
  is_undefined v = false ->
  p_set provider (memo_key o args) v (memo_maxAge o) (memo_set_options o) s1 = (r, s2) ->
  p_get provider (memo_key o args) (memo_get_options o) s2 = (Ok (Fulfilled v), s3) ->
  let g := memoizedFunction (memoize func o) args in
  fst (g w) = Ok (Fulfilled v) /\
  fst (g (snd (g w))) = Ok (Fulfilled v) /\
  funcCalls (snd (g (snd (g w)))) = (funcCalls w ++ [args])%list.
Proof.
  intros Hp Hget Hfunc Hv Hset Hget2 g. subst g.
  set (get := OpGet (memo_key o args) (memo_get_options o)).
  set (put := OpSet (memo_key o args) v (memo_maxAge o) (memo_set_options o)).
  assert (H1 : exists w',
             memoizedFunction (memoize func o) args w = (Ok (Fulfilled v), w') /\
             defaultProvider w' = Some (Fulfilled provider) /\
             backend w' = s2 /\
             funcCalls w' = (funcCalls w ++ [args])%list).
  { rewrite memoizedFunction_eq. fold get.
    rewrite (facade_delegates get w provider Hp).
    cbn [provider_method get]. rewrite Hget. cbn [is_undefined app with_backend
      log_providerCall log_debug]. rewrite Hfunc. fold put.
    match goal with
    | |- context [floating (facade put) ?w2] =>
        destruct (floating_facade_delegates put w2 provider Hp)
          as (w' & Hw' & Hp' & _ & Hb & Hf & _)
    end.
    rewrite Hw'. exists w'. cbn [snd]. repeat split; try assumption.
    rewrite Hb. cbn. now rewrite Hset. }
  destruct H1 as (w' & E & Hp' & Hb' & Hf'). rewrite E. cbn [fst snd].
  split; [reflexivity |].
  rewrite memoizedFunction_eq. fold get.
  rewrite (facade_delegates get w' provider Hp').
  cbn [provider_method get]. rewrite Hb', Hget2, Hv. cbn. auto.
Qed.

(** C10: a result [undefined] is never effectively cached.  Take a provider
    that reads back [undefined] once [undefined] has been stored after a
    miss; if the wrapped function returns [undefined] for [args], then from a
    state where the lookup misses, each of [n] successive calls invokes the
    wrapped function. *)
Theorem C10_undefined_is_never_cached (func : list value -> App -> outcome * App)
    (o : MemoizeOptions) (args : list value) (provider : Provider) (n : nat)
    (w : world) :
  defaultProvider w = Some (Fulfilled provider) ->
  (forall a, exists a', func args a = (Ok (Fulfilled VUndefined), a')) ->
  (forall s s1 s2 r,
     p_get provider (memo_key o args) (memo_get_options o) s =
       (Ok (Fulfilled VUndefined), s1) ->
     p_set provider (memo_key o args) VUndefined (memo_maxAge o) (memo_set_options o) s1 =
       (r, s2) ->
     misses provider (memo_key o args) (memo_get_options o) s2) ->
  misses provider (memo_key o args) (memo_get_options o) (backend w) ->
  funcCalls (repeatedly n (memoizedFunction (memoize func o) args) w) =
    (funcCalls w ++ repeat args n)%list.
Proof.
  intros Hp Hfunc Hlaw. revert w Hp.
  induction n as [| n IH]; intros w Hp Hmiss; cbn [repeatedly repeat].
  - now rewrite app_nil_r.
  - destruct Hmiss as [s1 Hget].
    destruct (Hfunc (app w)) as [a' Ha'].
    set (get := OpGet (memo_key o args) (memo_get_options o)).
    set (put := OpSet (memo_key o args) VUndefined (memo_maxAge o) (memo_set_options o)).
    assert (H1 : exists w',
               snd (memoizedFunction (memoize func o) args w) = w' /\
               defaultProvider w' = Some (Fulfilled provider) /\
               misses provider (memo_key o args) (memo_get_options o) (backend w') /\
               funcCalls w' = (funcCalls w ++ [args])%list).
    { rewrite memoizedFunction_eq. fold get.
      rewrite (facade_delegates get w provider Hp).
      cbn [provider_method get]. rewrite Hget. cbn [is_undefined app with_backend
        log_providerCall log_debug]. rewrite Ha'. fold put.
      match goal with
      | |- context [floating (facade put) ?w2] =>
          destruct (floating_facade_delegates put w2 provider Hp)
            as (w' & Hw' & Hp' & _ & Hb & Hf & _)
      end.
      rewrite Hw'. exists w'. cbn [snd]. repeat split; try assumption.
      rewrite Hb. cbn [provider_method put backend with_app log_funcCall
        with_backend log_providerCall log_debug].
      destruct (p_set provider (memo_key o args) VUndefined (memo_maxAge o)
                  (memo_set_options o) s1) as [r s2] eqn:Hset.
      exact (Hlaw _ _ _ _ Hget Hset). }
    destruct H1 as (w' & E & Hp' & Hmiss' & Hf'). rewrite E.
    rewrite (IH w' Hp' Hmiss'), Hf', <- app_assoc. reflexivity.
Qed.

(** ** Invalidation fan-out *)

Lemma deletes_app (l1 l2 : list provider_call) :
  deletes (l1 ++ l2) = (deletes l1 ++ deletes l2)%list.
Proof.
  induction l1 as [| c l1 IH]; cbn; [reflexivity |].
  destruct c; cbn; now rewrite IH.
Qed.

Lemma deletes_map_PDelete (l : list value) : deletes (map PDelete l) = l.
Proof.
  induction l as [| k l IH]; cbn; [reflexivity | now rewrite IH].
Qed.

(** The loop over the listed keys: the provider receives one delete per key,
    in the order of the list, whatever each delete does. *)
Lemma for_of_deletes (l : list value) (w : world) (provider : Provider) :
  defaultProvider w = Some (Fulfilled provider) ->
  exists w',
    for_of l (fun key => floating (cache_delete key)) w = (Ok tt, w') /\
    defaultProvider w' = Some (Fulfilled provider) /\
    providerCalls w' = (providerCalls w ++ map PDelete l)%list.
Proof.
  revert w. induction l as [| k l IH]; intros w Hp; cbn [for_of map].
  - exists w. rewrite app_nil_r. auto.
  - change (cache_delete k) with (facade (OpDelete k)).
    destruct (floating_facade_delegates (OpDelete k) w provider Hp)
      as (w1 & Hw1 & Hp1 & Hc1 & _).
    unfold bind at 1. rewrite Hw1.
    destruct (IH w1 Hp1) as (w' & Hw' & Hp' & Hc').
    exists w'. rewrite Hw'. repeat split; [assumption |].
    rewrite Hc', Hc1, <- app_assoc. reflexivity.
Qed.

(** C2 (amended): [purgeGraphqlCacheForCollective(slug)] reads the set stored
    under [graphqlCacheKeys_<slug>].  When the read yields an array, the
    provider receives first the delete of the set key itself and then one
    delete per listed key, in the order of the list, and the purge fulfils.
    When the read yields [undefined] (or another falsy value), the purge
    fulfils and the provider receives nothing beyond the read: no delete is
    performed. *)
Theorem C2_purge_graphql_cache (slug : string) (w w1 : world) (keys : value) :
  cache_get (VStr ("graphqlCacheKeys_" ++ slug)) None w = (Ok (Fulfilled keys), w1) ->
  (forall l,
     keys = VArr l ->
     exists w',
       purgeGraphqlCacheForCollective slug w = (Ok (Fulfilled VUndefined), w') /\
       providerCalls w' =
         (providerCalls w1 ++
          PDelete (VStr ("graphqlCacheKeys_" ++ slug)) :: map PDelete l)%list /\
       deletes (providerCalls w') =
         (deletes (providerCalls w) ++ VStr ("graphqlCacheKeys_" ++ slug) :: l)%list) /\
  (truthy keys = false ->
   purgeGraphqlCacheForCollective slug w = (Ok (Fulfilled VUndefined), w1) /\
   deletes (providerCalls w1) = deletes (providerCalls w)).
Proof.
  intros Hget.
  set (setKey := VStr ("graphqlCacheKeys_" ++ slug)) in *.
  assert (Hd : deletes (providerCalls w1) = deletes (providerCalls w)).
  { pose proof (facade_calls (OpGet setKey None) w) as Hc.
    change (facade (OpGet setKey None)) with (cache_get setKey None) in Hc.
    rewrite Hget in Hc. cbn [snd call_of] in Hc.
    destruct Hc as [-> | ->]; [reflexivity |].
    rewrite deletes_app. cbn. now rewrite app_nil_r. }
  split.
  - intros l ->.
    destruct (facade_value_resolved (OpGet setKey None) w w1 (VArr l) Hget eq_refl)
      as [provider Hp].
    unfold purgeGraphqlCacheForCollective, async. fold setKey.
    unfold bind at 1. rewrite Hget.
    cbn [then_ truthy iterate].
    change (cache_delete setKey) with (facade (OpDelete setKey)).
    destruct (floating_facade_delegates (OpDelete setKey) w1 provider Hp)
      as (w2 & Hw2 & Hp2 & Hc2 & _).
    unfold bind at 1. rewrite Hw2.
    destruct (for_of_deletes l w2 provider Hp2) as (w' & Hw' & _ & Hc').
    unfold bind at 1. rewrite Hw'. unfold ret.
    exists w'. split; [reflexivity |].
    assert (E : providerCalls w' =
                (providerCalls w1 ++ PDelete setKey :: map PDelete l)%list).
    { rewrite Hc', Hc2, <- app_assoc. reflexivity. }
    split; [exact E |].
    rewrite E, deletes_app, Hd. cbn. now rewrite deletes_map_PDelete.
  - intros Hfalsy. split; [| exact Hd].
    unfold purgeGraphqlCacheForCollective, async. fold setKey.
    unfold bind at 1. rewrite Hget. cbn [then_]. now rewrite Hfalsy.
Qed.

Lemma cache_only_trans (w1 w2 w3 : world) (l1 l2 : list string) :
  cache_only w1 w2 l1 -> cache_only w2 w3 l2 -> cache_only w1 w3 (l1 ++ l2).
Proof.
  intros (A1 & B1 & C1 & D1) (A2 & B2 & C2 & D2).
  repeat split; try congruence.
  rewrite D2, D1, app_assoc. reflexivity.
Qed.

Lemma floating_facade_cache_only (op : facade_op) (w : world) :
  exists w',
    floating (facade op) w = (Ok tt, w') /\ cache_only w w' [debug_of op].
Proof.
  destruct (floating_facade_frame op w)
    as (w' & Hw' & _ & Ha & _ & Hp & Hc & Hd & _).
  exists w'. repeat split; assumption.
Qed.

Lemma for_of_deletes_cache_only (l : list value) (w : world) :
  exists w' lines,
    for_of l (fun key => floating (cache_delete key)) w = (Ok tt, w') /\
    cache_only w w' lines.
Proof.
  revert w. induction l as [| k l IH]; intros w; cbn [for_of].
  - exists w, []. split; [reflexivity |].
    repeat split. now rewrite app_nil_r.
  - change (cache_delete k) with (facade (OpDelete k)).
    destruct (floating_facade_cache_only (OpDelete k) w) as (w1 & Hw1 & F1).
    destruct (IH w1) as (w' & lines & Hw' & F').
    unfold bind at 1. rewrite Hw1.
    exists w'. eexists. split; [exact Hw' |].
    exact (cache_only_trans _ _ _ _ _ F1 F').
Qed.

(** The GraphQL purge always returns a promise, starts with the read of the
    set key, and stays inside the cache layer. *)
Lemma purgeGraphql_cache_only (slug : string) (w : world) :
  exists p w' rest,
    purgeGraphqlCacheForCollective slug w = (Ok p, w') /\
    cache_only w w' (("get graphqlCacheKeys_" ++ slug)%string :: rest).
Proof.
  unfold purgeGraphqlCacheForCollective, async.
  set (setKey := VStr ("graphqlCacheKeys_" ++ slug)).
  change (cache_get setKey None) with (facade (OpGet setKey None)).
  destruct (facade_returns (OpGet setKey None) w) as (p & w1 & Hget).
  pose proof (facade_frame (OpGet setKey None) w) as F. rewrite Hget in F.
  cbn [snd debug_of toString setKey] in F.
  destruct F as (_ & Ha & _ & Hp & Hc & _ & Hd).
  assert (F1 : cache_only w w1 [("get graphqlCacheKeys_" ++ slug)%string]).
  { repeat split; assumption. }
  unfold bind at 1. rewrite Hget.
  destruct p as [keys | e]; cbn [then_].
  2:{ exists (Rejected e), w1, []. split; [reflexivity | exact F1]. }
  destruct (truthy keys).
  2:{ exists (Fulfilled VUndefined), w1, []. split; [reflexivity | exact F1]. }
  change (cache_delete setKey) with (facade (OpDelete setKey)).
  destruct (floating_facade_cache_only (OpDelete setKey) w1) as (w2 & Hw2 & F2).
  unfold bind at 1. rewrite Hw2.
  pose proof (cache_only_trans _ _ _ _ _ F1 F2) as F12.
  destruct (iterate keys) as [l |].
  - destruct (for_of_deletes_cache_only l w2) as (w' & lines & Hw' & F').
    unfold bind at 1. rewrite Hw'. unfold ret.
    exists (Fulfilled VUndefined), w'. eexists. split; [reflexivity |].
    exact (cache_only_trans _ _ _ _ _ F12 F').
  - unfold throw.
    exists (Rejected (TypeError "keys is not iterable")), w2. eexists.
    split; [reflexivity | exact F12].
Qed.

(** When the CDN purge throws before returning, the exception leaves
    [purgeCacheForCollective] at once: nothing else is attempted. *)
Lemma purgeAll_aborts_on_throw (account : Account) (w : world) (e : error) (a' : App) :
  purgeCacheForPage ("/" ++ slug account) (app w) = (Thrown e, a') ->
  purgeAllCachesForAccount account w =
    (Ok (Rejected e), with_app a' (log_pagePurge ("/" ++ slug account) w)).
Proof.
  intros H.
  unfold purgeAllCachesForAccount, async, purgeCacheForCollective.
  unfold bind at 1. unfold bind at 1. unfold floating at 1. unfold bind at 1.
  unfold call_purgeCacheForPage. now rewrite H.
Qed.

(** C8 (amended): when the CDN purge call returns, whether the promise it
    returns is fulfilled or rejected, [purgeAllCachesForAccount] attempts all
    three steps: the page purge of [/<slug>], the GraphQL purge for the slug
    (which starts by reading [graphqlCacheKeys_<slug>]) and the invalidation
    of the contributors cache for the account's id.  A rejection in the first
    or the second step, or a failure of the third, takes none of the
    attempts away. *)
Theorem C8_purge_all_caches (account : Account) (w : world)
    (p : promise value) (a' : App) :
  purgeCacheForPage ("/" ++ slug account) (app w) = (Ok p, a') ->
  exists q w' rest,
    purgeAllCachesForAccount account w = (Ok q, w') /\
    pagePurges w' = (pagePurges w ++ [("/" ++ slug account)%string])%list /\
    debugs w' =
      (debugs w ++ ("get graphqlCacheKeys_" ++ slug account)%string :: rest)%list /\
    contributorsInvalidations w' =
      (contributorsInvalidations w ++ [id account])%list.
Proof.
  intros Hpage.
  unfold purgeAllCachesForAccount, async, purgeCacheForCollective.
  assert (H1 : exists w1,
             floating (call_purgeCacheForPage ("/" ++ slug account)) w = (Ok tt, w1) /\
             pagePurges w1 = (pagePurges w ++ [("/" ++ slug account)%string])%list /\
             debugs w1 = debugs w /\
             contributorsInvalidations w1 = contributorsInvalidations w).
  { unfold floating, bind, call_purgeCacheForPage. rewrite Hpage.
    destruct p as [v | e]; eexists; (split; [reflexivity |]); cbn; auto. }
  destruct H1 as (w1 & Hw1 & Hp1 & Hd1 & Hc1).
  destruct (purgeGraphql_cache_only (slug account) w1)
    as (q2 & w2 & rest & Hw2 & (_ & Hp2 & Hc2 & Hd2)).
  assert (H3 : exists w3,
             floating (purgeGraphqlCacheForCollective (slug account)) w1 = (Ok tt, w3) /\
             pagePurges w3 = pagePurges w2 /\ debugs w3 = debugs w2 /\
             contributorsInvalidations w3 = contributorsInvalidations w2).
  { unfold floating, bind. rewrite Hw2.
    destruct q2 as [v | e]; eexists; (split; [reflexivity |]); cbn; auto. }
  destruct H3 as (w3 & Hw3 & Hp3 & Hd3 & Hc3).
  unfold bind at 1. unfold bind at 1. rewrite Hw1.
  rewrite Hw3.
  unfold bind at 1. unfold bind at 1. unfold call_invalidateContributorsCache.
  destruct (invalidateContributorsCache (id account) (app w3)) as [[[v | e] | e] a3];
    cbn; do 2 eexists; exists rest;
    (split; [reflexivity |]); cbn; rewrite ?Hp3, ?Hd3, ?Hc3, ?Hp2, ?Hd2, ?Hc2,
      ?Hp1, ?Hd1, ?Hc1; auto.
Qed.

(** ** The collective id lookup *)

Context {D : Models}.

(** [fetchCollectiveId] over the facade. *)
Lemma fetchCollectiveId_eq (collectiveSlug : string) (w : world) :
  let cacheKey := VStr ("collective_id_with_slug_" ++ collectiveSlug) in
  fetchCollectiveId collectiveSlug w =
    match facade (OpGet cacheKey None) w with
    | (Ok (Fulfilled v), w1) =>
        if truthy v then (Ok (Fulfilled v), w1)
        else
          match Collective_findOne (toLowerCase collectiveSlug) (app w1) with
          | (Ok (Fulfilled c), a') =>
              if truthy c then
                (Ok (Fulfilled (prop c "id")),
                 snd (floating
                        (facade (OpSet cacheKey (prop c "id") (VNum oneDayInSeconds) None))
                        (with_app a' w1)))
              else (Ok (Fulfilled VUndefined), with_app a' w1)
          | (Ok (Rejected e), a') | (Thrown e, a') =>
              (Ok (Rejected e), with_app a' w1)
          end
    | (Ok (Rejected e), w1) | (Thrown e, w1) => (Ok (Rejected e), w1)
    end.
Proof.
  intros cacheKey. unfold fetchCollectiveId. fold cacheKey. cbn zeta.
  cbn [facade].
  unfold async at 1. unfold bind at 1. unfold bind at 1.
  destruct (cache_get cacheKey None w) as [[[v | e] | e] w1]; cbn; try reflexivity.
  destruct (truthy v); [reflexivity |].
  unfold bind at 1. unfold bind at 1. unfold call_findOne.
  destruct (Collective_findOne (toLowerCase collectiveSlug) (app w1))
    as [[[c | e] | e] a']; cbn; try reflexivity.
  destruct (truthy c); [| reflexivity].
  change (cache_set cacheKey (prop c "id") (VNum 86400) None)
    with (facade (OpSet cacheKey (prop c "id") (VNum 86400) None)).
  unfold bind. rewrite floating_facade. reflexivity.
Qed.

(** X1: a truthy id found in the cache is returned as it is: the database
    is not queried (the application state is untouched) and the provider
    receives the read and nothing else. *)
Theorem fetchCollectiveId_hit (collectiveSlug : string) (w w1 : world) (v : value) :
  cache_get (VStr ("collective_id_with_slug_" ++ collectiveSlug)) None w =
    (Ok (Fulfilled v), w1) ->
  truthy v = true ->
  fetchCollectiveId collectiveSlug w = (Ok (Fulfilled v), w1) /\
  app w1 = app w /\
  providerCalls w1 =
    (providerCalls w ++
     [PGet (VStr ("collective_id_with_slug_" ++ collectiveSlug)) None])%list.
Proof.
  intros Hget Hv.
  set (cacheKey := VStr ("collective_id_with_slug_" ++ collectiveSlug)) in *.
  change (cache_get cacheKey None) with (facade (OpGet cacheKey None)) in Hget.
  split; [| split].
  - pose proof (fetchCollectiveId_eq collectiveSlug w) as E. cbn zeta in E.
    fold cacheKey in E. now rewrite E, Hget, Hv.
  - pose proof (facade_frame (OpGet cacheKey None) w) as F.
    rewrite Hget in F. apply F.
  - revert Hget. facade_cases (OpGet cacheKey None) w;
      intros Hget; inversion Hget; subst; cbn in *; try discriminate; reflexivity.
Qed.

(** X2: on a miss (the cached value is falsy) the database is asked for the
    lower-cased slug; the id of the collective it finds is returned, and
    handed to the facade's [set] under the key of the slug as given, for one
    day. *)
Theorem fetchCollectiveId_miss_found (collectiveSlug : string) (w w1 : world)
    (v collective : value) (a' : App) :
  cache_get (VStr ("collective_id_with_slug_" ++ collectiveSlug)) None w =
    (Ok (Fulfilled v), w1) ->
  truthy v = false ->
  Collective_findOne (toLowerCase collectiveSlug) (app w1) =
    (Ok (Fulfilled collective), a') ->
  truthy collective = true ->
  exists w',
    fetchCollectiveId collectiveSlug w = (Ok (Fulfilled (prop collective "id")), w') /\
    app w' = a' /\
    debugs w' =
      (debugs w1 ++ [("set collective_id_with_slug_" ++ collectiveSlug)%string])%list /\
    forall provider,
      defaultProvider w1 = Some (Fulfilled provider) ->
      providerCalls w' =
        (providerCalls w1 ++
         [PSet (VStr ("collective_id_with_slug_" ++ collectiveSlug))
            (prop collective "id") (VNum 86400) None])%list.
Proof.
  intros Hget Hv Hfind Hc.
  set (cacheKey := VStr ("collective_id_with_slug_" ++ collectiveSlug)) in *.
  change (cache_get cacheKey None) with (facade (OpGet cacheKey None)) in Hget.
  pose proof (fetchCollectiveId_eq collectiveSlug w) as E. cbn zeta in E.
  fold cacheKey in E. rewrite E, Hget, Hv, Hfind, Hc. clear E.
  set (op := OpSet cacheKey (prop collective "id") (VNum oneDayInSeconds) None).
  destruct (floating_facade_frame op (with_app a' w1))
    as (w' & Hw' & _ & Ha & _ & _ & _ & Hdbg & _).
  rewrite Hw'. exists w'. cbn [snd].
  split; [reflexivity |]. split; [exact Ha |]. split; [exact Hdbg |].
  intros provider Hp.
  destruct (floating_facade_delegates op (with_app a' w1) provider Hp)
    as (w'' & Hw'' & _ & Hcalls & _).
  rewrite Hw' in Hw''. inversion Hw''; subst w''. exact Hcalls.
Qed.

(** X3: when the database finds no collective, the lookup fulfils with
    [undefined] and writes nothing to the cache: an unknown slug is not
    remembered. *)
Theorem fetchCollectiveId_not_found_is_not_cached (collectiveSlug : string)
    (w w1 : world) (v collective : value) (a' : App) :
  cache_get (VStr ("collective_id_with_slug_" ++ collectiveSlug)) None w =
    (Ok (Fulfilled v), w1) ->
  truthy v = false ->
  Collective_findOne (toLowerCase collectiveSlug) (app w1) =
    (Ok (Fulfilled collective), a') ->
  truthy collective = false ->
  exists w',
    fetchCollectiveId collectiveSlug w = (Ok (Fulfilled VUndefined), w') /\
    app w' = a' /\
    providerCalls w' = providerCalls w1 /\
    backend w' = backend w1 /\
    debugs w' = debugs w1.
Proof.
  intros Hget Hv Hfind Hc.
  set (cacheKey := VStr ("collective_id_with_slug_" ++ collectiveSlug)) in *.
  change (cache_get cacheKey None) with (facade (OpGet cacheKey None)) in Hget.
  pose proof (fetchCollectiveId_eq collectiveSlug w) as E. cbn zeta in E.
  fold cacheKey in E. rewrite E, Hget, Hv, Hfind, Hc.
  eexists. split; [reflexivity |]. cbn. auto.
Qed.

(** X4: a failure of the database query, thrown or rejected, reaches the
    caller of [fetchCollectiveId] as a rejection with the same error, and
    nothing is written to the cache. *)
Theorem fetchCollectiveId_query_failure_propagates (collectiveSlug : string)
    (w w1 : world) (v : value) (r : outcome) (a' : App) (e : error) :
  cache_get (VStr ("collective_id_with_slug_" ++ collectiveSlug)) None w =
    (Ok (Fulfilled v), w1) ->
  truthy v = false ->
  Collective_findOne (toLowerCase collectiveSlug) (app w1) = (r, a') ->
  fails r e ->
  exists w',
    fetchCollectiveId collectiveSlug w = (Ok (Rejected e), w') /\
    providerCalls w' = providerCalls w1 /\
    backend w' = backend w1 /\
    debugs w' = debugs w1.
Proof.
  intros Hget Hv Hfind Hfail.
  set (cacheKey := VStr ("collective_id_with_slug_" ++ collectiveSlug)) in *.
  change (cache_get cacheKey None) with (facade (OpGet cacheKey None)) in Hget.
  pose proof (fetchCollectiveId_eq collectiveSlug w) as E. cbn zeta in E.
  fold cacheKey in E. rewrite E, Hget, Hv, Hfind.
  destruct Hfail as [-> | ->]; eexists; (split; [reflexivity |]); cbn; auto.
Qed.

(** X5: once the id found in the database is stored and the provider gives
    it back, a second lookup of the slug is served from the cache: the
    database has been queried once. *)
Theorem fetchCollectiveId_second_call_is_cached (collectiveSlug : string)
    (w : world) (provider : Provider) (v collective : value) (a' : App)
    (s1 s2 s3 : St) (r : outcome) :
  let cacheKey := VStr ("collective_id_with_slug_" ++ collectiveSlug) in
  defaultProvider w = Some (Fulfilled provider) ->
  p_get provider cacheKey None (backend w) = (Ok (Fulfilled v), s1) ->
  truthy v = false ->
  Collective_findOne (toLowerCase collectiveSlug) (app w) =
    (Ok (Fulfilled collective), a') ->
  truthy collective = true ->
  truthy (prop collective "id") = true ->
  p_set provider cacheKey (prop collective "id") (VNum 86400) None s1 = (r, s2) ->
  p_get provider cacheKey None s2 = (Ok (Fulfilled (prop collective "id")), s3) ->
  let w1 := snd (fetchCollectiveId collectiveSlug w) in
  fst (fetchCollectiveId collectiveSlug w) = Ok (Fulfilled (prop collective "id")) /\
  fst (fetchCollectiveId collectiveSlug w1) = Ok (Fulfilled (prop collective "id")) /\
  app (snd (fetchCollectiveId collectiveSlug w1)) = a'.
Proof.
  intros cacheKey Hp Hget Hv Hfind Hc Hid Hset Hget2. cbn zeta.
  set (get := OpGet cacheKey None).
  set (put := OpSet cacheKey (prop collective "id") (VNum 86400) None).
  assert (H1 : exists w',
             fetchCollectiveId collectiveSlug w =
               (Ok (Fulfilled (prop collective "id")), w') /\
             defaultProvider w' = Some (Fulfilled provider) /\
             backend w' = s2 /\ app w' = a').
  { pose proof (fetchCollectiveId_eq collectiveSlug w) as E. cbn zeta in E.
    fold cacheKey in E. fold get in E. rewrite E. clear E.
    rewrite (facade_delegates get w provider Hp).
    cbn [provider_method get]. rewrite Hget, Hv.
    cbn [app with_backend log_providerCall log_debug]. rewrite Hfind, Hc.
    change (OpSet cacheKey (prop collective "id") (VNum oneDayInSeconds) None) with put.
    match goal with
    | |- context [floating (facade put) ?w2] =>
        destruct (floating_facade_delegates put w2 provider Hp)
          as (w' & Hw' & Hp' & _ & Hb & _ & Ha & _)
    end.
    rewrite Hw'. exists w'. cbn [snd]. repeat split; try assumption.
    rewrite Hb. cbn. now rewrite Hset. }
  destruct H1 as (w' & E1 & Hp' & Hb' & Ha'). rewrite E1. cbn [fst snd].
  split; [reflexivity |].
  pose proof (fetchCollectiveId_eq collectiveSlug w') as E. cbn zeta in E.
  fold cacheKey in E. fold get in E. rewrite E. clear E.
  rewrite (facade_delegates get w' provider Hp').
  cbn [provider_method get]. rewrite Hb', Hget2, Hid. cbn. auto.
Qed.

(** X6: with the provider out of reach (its construction failed), the
    lookup still answers from the database; the failed read and the failed
    write are each logged as a warning, and nothing is left unhandled. *)
Theorem fetchCollectiveId_survives_outage (collectiveSlug : string) (w : world)
    (e : error) (collective : value) (a' : App) :
  defaultProvider w = Some (Rejected e) ->
  Collective_findOne (toLowerCase collectiveSlug) (app w) =
    (Ok (Fulfilled collective), a') ->
  truthy collective = true ->
  exists w',
    fetchCollectiveId collectiveSlug w = (Ok (Fulfilled (prop collective "id")), w') /\
    warnings w' =
      (warnings w ++
       [("Error while fetching from cache: " ++ message e)%string;
        ("Error while writing to cache: " ++ message e)%string])%list /\
    providerCalls w' = providerCalls w /\
    unhandled w' = unhandled w.
Proof.
  intros Hp Hfind Hc.
  set (cacheKey := VStr ("collective_id_with_slug_" ++ collectiveSlug)).
  pose proof (fetchCollectiveId_eq collectiveSlug w) as E. cbn zeta in E.
  fold cacheKey in E. rewrite E. clear E.
  rewrite (facade_catches_resolution_failure (OpGet cacheKey None) w e Hp).
  cbn [truthy app log_warning log_debug]. rewrite Hfind, Hc.
  rewrite floating_facade.
  match goal with
  | |- context [facade ?op ?w2] =>
      rewrite (facade_catches_resolution_failure op w2 e Hp)
  end.
  eexists. split; [reflexivity |]. cbn.
  rewrite <- app_assoc. auto.
Qed.

(** ** More on provider resolution *)

(** With a failed provider in the module variable, whatever follows leaves
    the provider side alone. *)
Lemma run_on_failed_provider (events : list event) (w : world) (e : error) :
  defaultProvider w = Some (Rejected e) ->
  defaultProvider (run events w) = Some (Rejected e) /\
  providerCalls (run events w) = providerCalls w /\
  backend (run events w) = backend w /\
  instantiated (run events w) = instantiated w.
Proof.
  revert w. induction events as [| ev events IH]; intros w Hp; cbn.
  - auto.
  - fold (run events (step ev w)).
    assert (Hs : defaultProvider (step ev w) = Some (Rejected e) /\
                 providerCalls (step ev w) = providerCalls w /\
                 backend (step ev w) = backend w /\
                 instantiated (step ev w) = instantiated w).
    { destruct ev as [op | c]; cbn [step].
      - rewrite (facade_catches_resolution_failure op w e Hp). cbn. auto.
      - cbn. auto. }
    destruct Hs as (H1 & H2 & H3 & H4).
    destruct (IH (step ev w) H1) as (G1 & G2 & G3 & G4).
    repeat split; congruence.
Qed.

(** X7: a provider that could not be built is never built again.  When the
    factory of the configured type fails on the first facade call of a
    process, that call and every later one, whatever calls and configuration
    changes come in between, fulfil with [undefined] and log a warning; the
    factory has been invoked once and the backing store is never reached. *)
Theorem failed_provider_is_never_retried (w : world) (e : error)
    (op op' : facade_op) (events : list event) :
  defaultProvider w = None ->
  fst (getProvider (VStr (getDefaultProviderType (config w))) w) = Ok (Rejected e) ->
  let w2 := run events (snd (facade op w)) in
  fst (facade op w) = Ok (Fulfilled VUndefined) /\
  fst (facade op' w2) = Ok (Fulfilled VUndefined) /\
  warnings (snd (facade op' w2)) = (warnings w2 ++ [warning_of op' e])%list /\
  instantiated (snd (facade op' w2)) =
    (instantiated w ++ [getDefaultProviderType (config w)])%list /\
  providerCalls (snd (facade op' w2)) = providerCalls w /\
  backend (snd (facade op' w2)) = backend w.
Proof.
  intros Hn Hfail. cbn zeta.
  assert (H1 : facade op w =
               (Ok (Fulfilled VUndefined),
                log_warning (warning_of op e)
                  (with_defaultProvider (Some (Rejected e))
                     (log_instantiated (getDefaultProviderType (config w))
                        (log_debug (debug_of op) w))))).
  { destruct (getDefaultProvider_first (log_debug (debug_of op) w) Hn) as [p Hp].
    assert (p = Rejected e) as ->.
    { revert Hp. unfold getDefaultProvider, bind, read, ret. cbn [defaultProvider log_debug].
      rewrite Hn. cbn [config log_debug].
      destruct (getProvider_returns (VStr (getDefaultProviderType (config w)))
                  (log_debug (debug_of op) w)) as (q & wq & Hq).
      assert (Hq' : fst (getProvider (VStr (getDefaultProviderType (config w)))
                           (log_debug (debug_of op) w)) = Ok (Rejected e)).
      { rewrite <- Hfail. unfold getProvider, async, bind, read, modify, call, throw.
        destruct (default_type_supported (config w)) as [E | [E | E]];
          rewrite E; cbn;
          [ destruct makeRedisProvider
          | destruct (makeMemcacheProvider _)
          | destruct (makeMemoryProvider _) ]; reflexivity. }
      rewrite Hq in Hq'. cbn in Hq'. inversion Hq'; subst q.
      rewrite Hq. unfold modify. intros H. now inversion H. }
    rewrite (facade_run op w _ (Rejected e) Hp). reflexivity. }
  rewrite H1. cbn [fst snd].
  set (w1 := log_warning _ _).
  assert (Hp1 : defaultProvider w1 = Some (Rejected e)) by reflexivity.
  destruct (run_on_failed_provider events w1 e Hp1) as (G1 & G2 & G3 & G4).
  rewrite (facade_catches_resolution_failure op' (run events w1) e G1).
  cbn. rewrite G2, G3, G4. cbn. repeat split; reflexivity.
Qed.

(** X8: the first facade call of a process invokes the factory of the type
    that the configuration selects, and no other. *)
Theorem first_call_builds_configured_provider (op : facade_op) (w : world) :
  defaultProvider w = None ->
  instantiated (snd (facade op w)) =
    (instantiated w ++ [getDefaultProviderType (config w)])%list.
Proof.
  intros Hn. facade_cases op w; try congruence; reflexivity.
Qed.

(** X9: [getProvider] itself keeps no singleton.  For a supported type it
    calls the matching factory (the memcache one with [config.memcache], the
    memory one with [{ max: 1000 }]) and returns what the factory returns,
    an exception of the factory becoming a rejection; the module variable is
    left alone, and a second call invokes the factory a second time. *)
Theorem getProvider_builds_each_time (w : world) :
  (let t := PROVIDER_TYPES.MEMCACHE in
   let w1 := snd (getProvider (VStr t) w) in
   fst (getProvider (VStr t) w) =
     Ok (settle (makeMemcacheProvider (get (config w) ["memcache"]))) /\
   defaultProvider w1 = defaultProvider w /\
   instantiated (snd (getProvider (VStr t) w1)) = (instantiated w ++ [t; t])%list) /\
  (let t := PROVIDER_TYPES.REDIS in
   let w1 := snd (getProvider (VStr t) w) in
   fst (getProvider (VStr t) w) = Ok (settle makeRedisProvider) /\
   defaultProvider w1 = defaultProvider w /\
   instantiated (snd (getProvider (VStr t) w1)) = (instantiated w ++ [t; t])%list) /\
  (let t := PROVIDER_TYPES.MEMORY in
   let w1 := snd (getProvider (VStr t) w) in
   fst (getProvider (VStr t) w) =
     Ok (settle (makeMemoryProvider (VObj [("max", VNum 1000)]))) /\
   defaultProvider w1 = defaultProvider w /\
   instantiated (snd (getProvider (VStr t) w1)) = (instantiated w ++ [t; t])%list).
Proof.
  unfold getProvider, async, bind, read, modify, call, throw. cbn.
  repeat split;
    repeat match goal with
      | |- context [match ?x with Ok _ => _ | Thrown _ => _ end] => destruct x
      end; cbn; rewrite <- ?app_assoc; reflexivity.
Qed.

(** ** More on memoization *)

(** X10: [refresh] recomputes without reading: the wrapped function is
    invoked once whatever the cache holds, the facade sees a [set] and no
    [get], and the promise fulfils with [undefined], not with the value. *)
Theorem refresh_recomputes_without_reading (func : list value -> App -> outcome * App)
    (o : MemoizeOptions) (args : list value) (w : world) (v : value) (a' : App) :
  func args (app w) = (Ok (Fulfilled v), a') ->
  exists w',
    refresh (memoize func o) args w = (Ok (Fulfilled VUndefined), w') /\
    funcCalls w' = (funcCalls w ++ [args])%list /\
    app w' = a' /\
    debugs w' = (debugs w ++ [("set " ++ cacheKey (key o) args)%string])%list.
Proof.
  intros Hfunc. rewrite refresh_eq, Hfunc.
  set (op := OpSet (memo_key o args) v (memo_maxAge o) (memo_set_options o)).
  destruct (floating_facade_frame op (with_app a' (log_funcCall args w)))
    as (w' & Hw' & _ & Ha & Hc & _ & _ & Hdbg & _).
  rewrite Hw'. exists w'. cbn [snd]. auto.
Qed.

(** X11: [clear] deletes the one fingerprinted key and does nothing else: it
    never invokes the wrapped function and it fulfils with [undefined]
    whatever the delete does. *)
Theorem clear_only_deletes (func : list value -> App -> outcome * App)
    (o : MemoizeOptions) (args : list value) (w : world) :
  exists w',
    clear (memoize func o) args w = (Ok (Fulfilled VUndefined), w') /\
    funcCalls w' = funcCalls w /\
    app w' = app w /\
    debugs w' = (debugs w ++ [("delete " ++ cacheKey (key o) args)%string])%list /\
    (providerCalls w' = providerCalls w \/
     providerCalls w' = (providerCalls w ++ [PDelete (memo_key o args)])%list).
Proof.
  rewrite clear_eq.
  set (op := OpDelete (memo_key o args)).
  destruct (floating_facade_frame op w)
    as (w' & Hw' & _ & Ha & Hc & _ & _ & Hdbg & _ & _ & Hcalls & _).
  rewrite Hw'. exists w'. cbn [snd].
  repeat split; try assumption.
  rewrite Hcalls. apply (facade_calls op w).
Qed.

(** X12: [clear] followed by a call recomputes.  When the provider misses
    the key after the delete, the call invokes the wrapped function and
    returns its fresh result. *)
Theorem clear_then_call_recomputes (func : list value -> App -> outcome * App)
    (o : MemoizeOptions) (args : list value) (w : world) (provider : Provider)
    (r : outcome) (s1 s2 : St) (v : value) (a' : App) :
  defaultProvider w = Some (Fulfilled provider) ->
  p_delete provider (memo_key o args) (backend w) = (r, s1) ->
  p_get provider (memo_key o args) (memo_get_options o) s1 =
    (Ok (Fulfilled VUndefined), s2) ->
  func args (app w) = (Ok (Fulfilled v), a') ->
  let m := memoize func o in
  let w1 := snd (clear m args w) in
  fst (memoizedFunction m args w1) = Ok (Fulfilled v) /\
  funcCalls (snd (memoizedFunction m args w1)) = (funcCalls w ++ [args])%list.
Proof.
  intros Hp Hdel Hget Hfunc. cbn zeta.
  rewrite clear_eq. cbn [snd].
  set (del := OpDelete (memo_key o args)).
  destruct (floating_facade_delegates del w provider Hp)
    as (w1 & Hw1 & Hp1 & _ & Hb1 & Hf1 & Ha1 & _).
  rewrite Hw1. cbn [snd].
  cbn [provider_method del] in Hb1. rewrite Hdel in Hb1. cbn [snd] in Hb1.
  rewrite memoizedFunction_eq.
  set (get := OpGet (memo_key o args) (memo_get_options o)).
  rewrite (facade_delegates get w1 provider Hp1).
  cbn [provider_method get]. rewrite Hb1, Hget.
  cbn [is_undefined app with_backend log_providerCall log_debug].
  rewrite Ha1, Hfunc. cbn [fst snd].
  split; [reflexivity |].
  match goal with
  | |- context [floating (facade ?op) ?w2] =>
      destruct (floating_facade_frame op w2) as (w' & Hw' & _ & _ & Hc & _)
  end.
  rewrite Hw'. cbn [snd]. rewrite Hc. cbn. now rewrite Hf1.
Qed.

(** X13: [refresh] followed by a call is a hit.  When the provider gives
    back the value [refresh] stored, the call returns it and the wrapped
    function has been invoked by [refresh] only. *)
Theorem refresh_then_call_hits (func : list value -> App -> outcome * App)
    (o : MemoizeOptions) (args : list value) (w : world) (provider : Provider)
    (r : outcome) (s1 s2 : St) (v : value) (a' : App) :
  defaultProvider w = Some (Fulfilled provider) ->
  func args (app w) = (Ok (Fulfilled v), a') ->
  is_undefined v = false ->
  p_set provider (memo_key o args) v (memo_maxAge o) (memo_set_options o) (backend w) =
    (r, s1) ->
  p_get provider (memo_key o args) (memo_get_options o) s1 = (Ok (Fulfilled v), s2) ->
  let m := memoize func o in
  let w1 := snd (refresh m args w) in
  fst (memoizedFunction m args w1) = Ok (Fulfilled v) /\
  funcCalls (snd (memoizedFunction m args w1)) = (funcCalls w ++ [args])%list.
Proof.
  intros Hp Hfunc Hv Hset Hget. cbn zeta.
  rewrite refresh_eq, Hfunc. cbn [snd].
  set (put := OpSet (memo_key o args) v (memo_maxAge o) (memo_set_options o)).
  destruct (floating_facade_delegates put (with_app a' (log_funcCall args w)) provider Hp)
    as (w1 & Hw1 & Hp1 & _ & Hb1 & Hf1 & _).
  rewrite Hw1. cbn [snd].
  cbn [provider_method put backend with_app log_funcCall] in Hb1.
  rewrite Hset in Hb1. cbn [snd] in Hb1.
  rewrite memoizedFunction_eq.
  set (get := OpGet (memo_key o args) (memo_get_options o)).
  rewrite (facade_delegates get w1 provider Hp1).
  cbn [provider_method get]. rewrite Hb1, Hget, Hv. cbn [fst snd].
  split; [reflexivity |]. cbn. exact Hf1.
Qed.

(** X14: with the provider out of reach (its construction failed), a
    memoized function still answers: each call invokes the wrapped function
    and returns its result; the failed read and the failed write are logged
    as warnings and the provider receives nothing. *)
Theorem memoized_survives_outage (func : list value -> App -> outcome * App)
    (o : MemoizeOptions) (args : list value) (w : world) (e : error)
    (v : value) (a' : App) :
  defaultProvider w = Some (Rejected e) ->
  func args (app w) = (Ok (Fulfilled v), a') ->
  exists w',
    memoizedFunction (memoize func o) args w = (Ok (Fulfilled v), w') /\
    funcCalls w' = (funcCalls w ++ [args])%list /\
    warnings w' =
      (warnings w ++
       [("Error while fetching from cache: " ++ message e)%string;
        ("Error while writing to cache: " ++ message e)%string])%list /\
    providerCalls w' = providerCalls w /\
    unhandled w' = unhandled w /\
    defaultProvider w' = Some (Rejected e).
Proof.
  intros Hp Hfunc.
  rewrite memoizedFunction_eq.
  rewrite (facade_catches_resolution_failure _ w e Hp).
  cbn [is_undefined app log_warning log_debug]. rewrite Hfunc.
  rewrite floating_facade.
  match goal with
  | |- context [facade ?op ?w2] =>
      rewrite (facade_catches_resolution_failure op w2 e Hp)
  end.
  eexists. split; [reflexivity |]. cbn.
  rewrite <- app_assoc. repeat split; auto.
Qed.

(** ** More on the invalidation fan-out *)

Lemma truthy_not_undefined (v : value) : truthy v = true -> is_undefined v = false.
Proof. now destruct v. Qed.

(** The loop over the listed keys, on the provider state. *)
Lemma for_of_deletes_backend (l : list value) (w : world) (provider : Provider) :
  defaultProvider w = Some (Fulfilled provider) ->
  exists w',
    for_of l (fun key => floating (cache_delete key)) w = (Ok tt, w') /\
    defaultProvider w' = Some (Fulfilled provider) /\
    backend w' = after_deletes provider l (backend w).
Proof.
  revert w. induction l as [| k l IH]; intros w Hp; cbn [for_of after_deletes fold_left].
  - exists w. auto.
  - change (cache_delete k) with (facade (OpDelete k)).
    destruct (floating_facade_delegates (OpDelete k) w provider Hp)
      as (w1 & Hw1 & Hp1 & _ & Hb1 & _).
    unfold bind at 1. rewrite Hw1.
    destruct (IH w1 Hp1) as (w' & Hw' & Hp' & Hb').
    exists w'. rewrite Hw'. repeat split; [assumption |].
    rewrite Hb', Hb1. reflexivity.
Qed.

(** X15: a set that is truthy but cannot be iterated (a number, a plain
    object) makes the purge reject with a [TypeError], after the set key
    itself has been deleted. *)
Theorem purge_rejects_on_non_iterable_set (slug : string) (w w1 : world) (keys : value) :
  cache_get (VStr ("graphqlCacheKeys_" ++ slug)) None w = (Ok (Fulfilled keys), w1) ->
  truthy keys = true ->
  iterate keys = None ->
  exists e w',
    purgeGraphqlCacheForCollective slug w = (Ok (Rejected e), w') /\
    name e = "TypeError" /\
    providerCalls w' =
      (providerCalls w1 ++ [PDelete (VStr ("graphqlCacheKeys_" ++ slug))])%list.
Proof.
  intros Hget Ht Hi.
  set (setKey := VStr ("graphqlCacheKeys_" ++ slug)) in *.
  destruct (facade_value_resolved (OpGet setKey None) w w1 keys Hget
              (truthy_not_undefined _ Ht)) as [provider Hp].
  unfold purgeGraphqlCacheForCollective, async. fold setKey.
  unfold bind at 1. rewrite Hget. cbn [then_]. rewrite Ht, Hi.
  change (cache_delete setKey) with (facade (OpDelete setKey)).
  destruct (floating_facade_delegates (OpDelete setKey) w1 provider Hp)
    as (w2 & Hw2 & _ & Hc2 & _).
  unfold bind at 1. rewrite Hw2. unfold throw.
  do 2 eexists. split; [reflexivity |]. split; [reflexivity | exact Hc2].
Qed.

(** X16: a purge leaves nothing for a second purge.  With a provider that
    misses a key once it is deleted, and keeps missing it while other keys
    are deleted, a purge that found a list is followed by a purge that
    fulfils without a single delete. *)
Theorem purge_twice_deletes_once (slug : string) (w : world) (provider : Provider)
    (l : list value) (s1 : St) :
  let setKey := VStr ("graphqlCacheKeys_" ++ slug) in
  defaultProvider w = Some (Fulfilled provider) ->
  p_get provider setKey None (backend w) = (Ok (Fulfilled (VArr l)), s1) ->
  (forall s, misses provider setKey None (snd (p_delete provider setKey s))) ->
  (forall k s,
     misses provider setKey None s ->
     misses provider setKey None (snd (p_delete provider k s))) ->
  let w1 := snd (purgeGraphqlCacheForCollective slug w) in
  fst (purgeGraphqlCacheForCollective slug w1) = Ok (Fulfilled VUndefined) /\
  deletes (providerCalls (snd (purgeGraphqlCacheForCollective slug w1))) =
    deletes (providerCalls w1).
Proof.
  intros setKey Hp Hget Hdel Hkeep. cbn zeta.
  assert (H1 : exists w1,
             purgeGraphqlCacheForCollective slug w = (Ok (Fulfilled VUndefined), w1) /\
             defaultProvider w1 = Some (Fulfilled provider) /\
             misses provider setKey None (backend w1)).
  { unfold purgeGraphqlCacheForCollective, async. fold setKey.
    change (cache_get setKey None) with (facade (OpGet setKey None)).
    unfold bind at 1. rewrite (facade_delegates _ w provider Hp).
    cbn [provider_method]. rewrite Hget. cbn [then_ truthy iterate].
    change (cache_delete setKey) with (facade (OpDelete setKey)).
    set (w0 := with_backend s1 _).
    assert (Hp0 : defaultProvider w0 = Some (Fulfilled provider)) by exact Hp.
    destruct (floating_facade_delegates (OpDelete setKey) w0 provider Hp0)
      as (w2 & Hw2 & Hp2 & _ & Hb2 & _).
    unfold bind at 1. rewrite Hw2.
    destruct (for_of_deletes_backend l w2 provider Hp2) as (w3 & Hw3 & Hp3 & Hb3).
    unfold bind at 1. rewrite Hw3. unfold ret.
    exists w3. repeat split; [assumption |].
    rewrite Hb3, Hb2. cbn [provider_method].
    generalize (Hdel (backend w0)).
    generalize (snd (p_delete provider setKey (backend w0))).
    clear - Hkeep. induction l as [| k l IH]; intros s Hs; cbn.
    - exact Hs.
    - apply IH. now apply Hkeep. }
  destruct H1 as (w1 & E1 & Hp1 & [s2 Hmiss]). rewrite E1. cbn [snd].
  assert (H2 : purgeGraphqlCacheForCollective slug w1 =
               (Ok (Fulfilled VUndefined),
                with_backend s2
                  (log_providerCall (PGet setKey None)
                     (log_debug (debug_of (OpGet setKey None)) w1)))).
  { unfold purgeGraphqlCacheForCollective, async. fold setKey.
    change (cache_get setKey None) with (facade (OpGet setKey None)).
    unfold bind at 1. rewrite (facade_delegates _ w1 provider Hp1).
    cbn [provider_method]. rewrite Hmiss. reflexivity. }
  rewrite H2. cbn [fst snd].
  split; [reflexivity |].
  cbn [providerCalls with_backend log_providerCall log_debug].
  rewrite deletes_app. cbn. now rewrite app_nil_r.
Qed.

(** X17: [purgeCacheForCollective] fires and forgets.  When the CDN purge
    call returns, it returns normally whatever becomes of the two promises,
    having called the page purge for [/<slug>] and left the contributors
    cache alone. *)
Theorem purgeCacheForCollective_fires_and_forgets (slug : string) (w : world)
    (p : promise value) (a' : App) :
  purgeCacheForPage ("/" ++ slug) (app w) = (Ok p, a') ->
  exists w',
    purgeCacheForCollective slug w = (Ok tt, w') /\
    pagePurges w' = (pagePurges w ++ [("/" ++ slug)%string])%list /\
    contributorsInvalidations w' = contributorsInvalidations w /\
    app w' = a'.
Proof.
  intros Hpage. unfold purgeCacheForCollective.
  assert (H1 : exists w1,
             floating (call_purgeCacheForPage ("/" ++ slug)) w = (Ok tt, w1) /\
             pagePurges w1 = (pagePurges w ++ [("/" ++ slug)%string])%list /\
             contributorsInvalidations w1 = contributorsInvalidations w /\
             app w1 = a').
  { unfold floating, bind, call_purgeCacheForPage. rewrite Hpage.
    destruct p as [v | e]; eexists; (split; [reflexivity |]); cbn; auto. }
  destruct H1 as (w1 & Hw1 & Hp1 & Hc1 & Ha1).
  destruct (purgeGraphql_cache_only slug w1)
    as (q & w2 & rest & Hw2 & (Ha2 & Hp2 & Hc2 & _)).
  unfold bind at 1. rewrite Hw1.
  unfold floating, bind. rewrite Hw2.
  destruct q as [v | e]; eexists; (split; [reflexivity |]); cbn;
    rewrite ?Hp2, ?Hc2, ?Ha2; auto.
Qed.

(** X18: the promise of [purgeAllCachesForAccount] settles as the
    contributors invalidation does: fulfilled with [undefined] when it
    succeeds, rejected with its error when it throws or rejects.  How the
    page purge promise and the GraphQL purge settle has no part in it. *)
Theorem purgeAll_settles_as_contributors_invalidation (account : Account) (w : world)
    (p : promise value) (a1 a2 : App) (r : outcome) :
  purgeCacheForPage ("/" ++ slug account) (app w) = (Ok p, a1) ->
  invalidateContributorsCache (id account) a1 = (r, a2) ->
  fst (purgeAllCachesForAccount account w) =
    Ok (match settle r with
        | Fulfilled _ => Fulfilled VUndefined
        | Rejected e => Rejected e
        end) /\
  app (snd (purgeAllCachesForAccount account w)) = a2.
Proof.
  intros Hpage Hinv.
  assert (H1 : exists w1,
             floating (call_purgeCacheForPage ("/" ++ slug account)) w = (Ok tt, w1) /\
             app w1 = a1).
  { unfold floating, bind, call_purgeCacheForPage. rewrite Hpage.
    destruct p as [v | e]; eexists; (split; [reflexivity |]); reflexivity. }
  destruct H1 as (w1 & Hw1 & Ha1).
  destruct (purgeGraphql_cache_only (slug account) w1)
    as (q & w2 & rest & Hw2 & (Ha2 & _)).
  assert (H3 : exists w3,
             floating (purgeGraphqlCacheForCollective (slug account)) w1 = (Ok tt, w3) /\
             app w3 = a1).
  { unfold floating, bind. rewrite Hw2.
    destruct q as [v | e]; eexists; (split; [reflexivity |]); cbn; congruence. }
  destruct H3 as (w3 & Hw3 & Ha3).
  assert (H : exists w',
            purgeAllCachesForAccount account w =
              (Ok (match settle r with
                   | Fulfilled _ => Fulfilled VUndefined
                   | Rejected e => Rejected e
                   end), w') /\
            app w' = a2).
  { unfold purgeAllCachesForAccount, async, purgeCacheForCollective.
    unfold bind at 1. unfold bind at 1. rewrite Hw1. rewrite Hw3.
    unfold bind at 1. unfold bind at 1. unfold call_invalidateContributorsCache.
    rewrite Ha3, Hinv.
    destruct r as [[v | e] | e]; cbn; eexists; split; reflexivity. }
  destruct H as (w' & E & Ha'). rewrite E. auto.
Qed.

End Properties.

(** * The properties on the concrete instance *)

Section Examples.

Import Sample.

#[local] Existing Instance Sample.types.
#[local] Existing Instance Sample.imports.

(** Storing [undefined] in the sample store reads back as [undefined]. *)
Lemma store_reads_back_undefined (k : value) (g : option GetOptions)
    (ttl : value) (o : option SetOptions) (s s1 s2 : store) (r : outcome) :
  p_get storeProvider k g s = (Ok (Fulfilled VUndefined), s1) ->
  p_set storeProvider k VUndefined ttl o s1 = (r, s2) ->
  misses storeProvider k g s2.
Proof.
  cbn. intros _ H. inversion H; subst. eexists. cbn.
  now rewrite String.eqb_refl.
Qed.

Lemma C1_witness :
  exists w',
    facade getA (resolved (rejectingProvider ECONNREFUSED)) =
      (Ok (Rejected ECONNREFUSED), w') /\
    warnings w' = warnings (resolved (rejectingProvider ECONNREFUSED)).
Proof.
  apply (C1_rejection_escapes_facade getA (resolved (rejectingProvider ECONNREFUSED))
           (rejectingProvider ECONNREFUSED) ECONNREFUSED acme); reflexivity.
Defined.

(** The same from a fresh process configured for Redis: the read rejects
    with the connection error and the warning log stays empty. *)
Example redis_outage_reaches_the_caller :
  fst (cache_get (VStr "a") None (fresh redisConfig acme 0%nat)) =
    Ok (Rejected ECONNREFUSED) /\
  warnings (snd (cache_get (VStr "a") None (fresh redisConfig acme 0%nat))) = [].
Proof. split; reflexivity. Qed.

(** A method that throws before returning is caught. *)
Example memcache_throw_is_caught :
  fst (cache_get (VStr "a") None (fresh memcacheConfig acme 0%nat)) =
    Ok (Fulfilled VUndefined) /\
  warnings (snd (cache_get (VStr "a") None (fresh memcacheConfig acme 0%nat))) =
    ["Error while fetching from cache: socket closed"].
Proof. split; reflexivity. Qed.

(** The claim's order for C2 (the listed keys, then the set key) is not the
    order of the code: on the store [acme], whose set lists [a] and [b], the
    provider receives the delete of the set key first. *)
Lemma C2_counterexample :
  deletes (providerCalls (snd (purgeGraphqlCacheForCollective "acme" start))) <>
    ([VStr "a"; VStr "b"] ++ [VStr "graphqlCacheKeys_acme"])%list.
Proof. vm_compute. discriminate. Qed.

Lemma C2_witness :
  (exists w',
     purgeGraphqlCacheForCollective "acme" start = (Ok (Fulfilled VUndefined), w') /\
     deletes (providerCalls w') =
       [VStr "graphqlCacheKeys_acme"; VStr "a"; VStr "b"]) /\
  purgeGraphqlCacheForCollective "nobody" start =
    (Ok (Fulfilled VUndefined), snd (cache_get (VStr "graphqlCacheKeys_nobody") None start)).
Proof.
  split.
  - destruct (C2_purge_graphql_cache "acme" start
                (snd (cache_get (VStr "graphqlCacheKeys_acme") None start))
                (VArr [VStr "a"; VStr "b"])) as [H _]; [reflexivity |].
    destruct (H [VStr "a"; VStr "b"] eq_refl) as (w' & Hw' & _ & Hd).
    exists w'. split; [exact Hw' | exact Hd].
  - destruct (C2_purge_graphql_cache "nobody" start
                (snd (cache_get (VStr "graphqlCacheKeys_nobody") None start))
                VUndefined) as [_ H]; [reflexivity |].
    exact (proj1 (H eq_refl)).
Defined.

(** A hit on [a]; a miss on [total] with a lifetime of 60 seconds; and a
    miss with no lifetime given. *)
Lemma C3_witness :
  (memoizedFunction (memoize counter (lasting "a" 60)) [] start =
     (Ok (Fulfilled (VNum 1)), snd (cache_get (VStr "a") (Some {| unserialize := None |}) start)) /\
   funcCalls (snd (cache_get (VStr "a") (Some {| unserialize := None |}) start)) = []) /\
  (exists w',
     memoizedFunction (memoize counter (lasting "total" 60)) [] start =
       (Ok (Fulfilled (VNum 0)), w') /\
     funcCalls w' = [[]] /\
     providerCalls w' =
       [PGet (VStr "total") (Some {| unserialize := None |});
        PSet (VStr "total") (VNum 0) (VNum 60) (Some {| serialize := None |})]) /\
  (exists w',
     memoizedFunction (memoize counter (options "total")) [] start =
       (Ok (Fulfilled (VNum 0)), w') /\
     funcCalls w' = [[]] /\
     providerCalls w' =
       [PGet (VStr "total") (Some {| unserialize := None |});
        PSet (VStr "total") (VNum 0) (VNum 0) (Some {| serialize := None |})]).
Proof.
  split; [| split].
  - destruct (C3_memoized_hit_and_miss counter (lasting "a" 60) [] start
                (snd (cache_get (VStr "a") (Some {| unserialize := None |}) start))
                (VNum 1)) as [H _]; [reflexivity |].
    exact (H eq_refl).
  - destruct (C3_memoized_hit_and_miss counter (lasting "total" 60) [] start
                (snd (cache_get (VStr "total") (Some {| unserialize := None |}) start))
                VUndefined) as [_ H]; [reflexivity |].
    destruct (H eq_refl (VNum 0) 1%nat eq_refl) as (w' & Hw' & Hf & _ & _ & Hp).
    exists w'. split; [exact Hw' |]. split; [exact Hf |].
    exact (proj1 (Hp storeProvider eq_refl)).
  - destruct (C3_memoized_hit_and_miss counter (options "total") [] start
                (snd (cache_get (VStr "total") (Some {| unserialize := None |}) start))
                VUndefined) as [_ H]; [reflexivity |].
    destruct (H eq_refl (VNum 0) 1%nat eq_refl) as (w' & Hw' & Hf & _ & _ & Hp).
    exists w'. split; [exact Hw' |]. split; [exact Hf |].
    exact (proj1 (Hp storeProvider eq_refl)).
Defined.

(** The claim of C4 that the text hashed is the JSON encoding of the
    arguments array fails: for the arguments 7 and [x] the array reads
    [[7,"x"]], the text hashed is [{"0":7,"1":"x"}], and under a hash that
    shows its text the key is not the one the claim gives. *)
Lemma C4_counterexample :
  JSON_stringify (VArr [VNum 7; VStr "x"]) =
    Some ("[7," ++ quote ++ "x" ++ quote ++ "]") /\
  JSON_stringify (arguments_object [VNum 7; VStr "x"]) =
    Some ("{" ++ quote ++ "0" ++ quote ++ ":7," ++
          quote ++ "1" ++ quote ++ ":" ++ quote ++ "x" ++ quote ++ "}") /\
  ~ (forall (k : string) (args : list value) (text : string),
       args <> [] ->
       JSON_stringify (VArr args) = Some text ->
       cacheKey k args = k ++ "_" ++ md5 text).
Proof.
  split; [reflexivity |]. split; [reflexivity |].
  intros H.
  specialize (H "members" [VNum 7; VStr "x"] _ ltac:(discriminate) eq_refl).
  vm_compute in H. discriminate H.
Qed.

Lemma C4_witness :
  cacheKey "members" [] = "members" /\
  cacheKey "members" [VNum 7; VStr "x"] =
    "members_#{" ++ quote ++ "0" ++ quote ++ ":7," ++
    quote ++ "1" ++ quote ++ ":" ++ quote ++ "x" ++ quote ++ "}" /\
  providerCalls (snd (clear (memoize counter (options "members")) [VNum 7; VStr "x"]
                        (resolved storeProvider))) =
    [PDelete (VStr (cacheKey "members" [VNum 7; VStr "x"]))].
Proof.
  destruct (C4_cache_key_rule counter (options "members") [VNum 7; VStr "x"]
              (resolved storeProvider) storeProvider) as (H0 & H1 & H2).
  split; [exact H0 |].
  split.
  - destruct H1 as (members & Ht & Hk & _); [discriminate |].
    cbn [key options] in Hk. rewrite Hk.
    assert (E : Some ("{" ++ members ++ "}") =
                Some ("{" ++ quote ++ "0" ++ quote ++ ":7," ++
                      quote ++ "1" ++ quote ++ ":" ++ quote ++ "x" ++ quote ++ "}"))
      by (rewrite <- Ht; reflexivity).
    injection E as E. rewrite E. reflexivity.
  - exact (proj2 (proj2 (H2 eq_refl))).
Defined.

Lemma C5_witness :
  (exists w',
     memoizedFunction (memoize broken (options "total")) [VNum 1] start =
       (Ok (Rejected (Error "database is down")), w') /\
     backend w' = acme) /\
  (exists w',
     refresh (memoize broken (options "total")) [VNum 1] start =
       (Ok (Rejected (Error "database is down")), w') /\
     providerCalls w' = []).
Proof.
  destruct (C5_wrapped_failure_propagates broken (options "total") [VNum 1] start
              (Error "database is down")) as [Hcall Hrefresh].
  split.
  - destruct (Hcall
                (snd (cache_get (memo_key (options "total") [VNum 1])
                        (memo_get_options (options "total")) start))
                (Ok (Rejected (Error "database is down"))) 1%nat)
      as (w' & Hw' & Hb & _); [reflexivity | reflexivity | right; reflexivity |].
    exists w'. split; [exact Hw' | exact Hb].
  - destruct (Hrefresh (Ok (Rejected (Error "database is down"))) 1%nat eq_refl
                (or_intror eq_refl)) as (w' & Hw' & _ & Hp & _).
    exists w'. split; [exact Hw' | exact Hp].
Defined.

(** The last two configurations name the property by the whole path. *)
Lemma C6_witness :
  getDefaultProviderType redisConfig = "REDIS" /\
  getDefaultProviderType memcacheConfig = "MEMCACHE" /\
  getDefaultProviderType noConfig = "MEMORY" /\
  getDefaultProviderType flatConfig = "REDIS" /\
  getDefaultProviderType shadowedConfig = "REDIS".
Proof.
  split; [| split; [| split; [| split]]].
  - apply (proj1 (C6_default_provider_type redisConfig)). reflexivity.
  - apply (proj1 (proj2 (C6_default_provider_type memcacheConfig))); reflexivity.
  - apply (proj2 (proj2 (C6_default_provider_type noConfig))); reflexivity.
  - apply (proj1 (C6_default_provider_type flatConfig)). reflexivity.
  - apply (proj1 (C6_default_provider_type shadowedConfig)). reflexivity.
Defined.

(** A process that starts without configuration resolves the store provider
    on its first call; a later switch of the configuration to Redis changes
    nothing: the next read is still answered by the store. *)
Lemma C7_witness :
  let w2 := run [Reconfigure redisConfig; Call (OpHas (VStr "b"))] (snd (facade getA start)) in
  defaultProvider w2 = Some (Fulfilled storeProvider) /\
  instantiated w2 = ["MEMORY"] /\
  fst (facade getA w2) = Ok (Fulfilled (VNum 1)).
Proof.
  destruct (C7_default_provider_singleton getA start
              [Reconfigure redisConfig; Call (OpHas (VStr "b"))])
    as [(p & H1 & H2 & H3 & H4) _].
  cbn zeta.
  assert (E : p = Fulfilled storeProvider).
  { assert (Some p = Some (Fulfilled storeProvider)) as E'
      by (rewrite <- H1; reflexivity).
    now inversion E'. }
  subst p.
  split; [exact H2 |].
  split; [rewrite H3; reflexivity |].
  rewrite (H4 storeProvider getA eq_refl). reflexivity.
Defined.

(** With a CDN purge that throws before returning, the claim of C8 fails:
    neither the GraphQL purge nor the contributors invalidation is
    attempted. *)
Lemma C8_counterexample :
  fst (purgeCacheForPage "/down" 0%nat) = Thrown (Error "cloudflare is not configured") /\
  ~ (exists q w' rest,
       purgeAllCachesForAccount downAccount start = (Ok q, w') /\
       pagePurges w' = (pagePurges start ++ ["/down"])%list /\
       debugs w' = (debugs start ++ "get graphqlCacheKeys_down" :: rest)%list /\
       contributorsInvalidations w' =
         (contributorsInvalidations start ++ [VNum 9])%list).
Proof.
  split; [reflexivity |].
  intros (q & w' & rest & H & _ & Hd & _).
  rewrite (purgeAll_aborts_on_throw downAccount start
             (Error "cloudflare is not configured") 0%nat) in H by reflexivity.
  inversion H; subst. cbn in Hd. discriminate Hd.
Qed.

(** The page purge of [/offline] returns a rejected promise: the three steps
    are attempted all the same. *)
Lemma C8_witness :
  exists q w' rest,
    purgeAllCachesForAccount offlineAccount start = (Ok q, w') /\
    pagePurges w' = ["/offline"] /\
    debugs w' = "get graphqlCacheKeys_offline" :: rest /\
    contributorsInvalidations w' = [VNum 8].
Proof.
  apply (C8_purge_all_caches offlineAccount start (Rejected (Error "ETIMEDOUT")) 0%nat).
  reflexivity.
Defined.



Lemma C10_witness :
  funcCalls (repeatedly 3 (memoizedFunction (memoize nothing (options "total")) [VNum 1])
               (resolved storeProvider)) =
    [[VNum 1]; [VNum 1]; [VNum 1]].
Proof.
  apply (C10_undefined_is_never_cached nothing (options "total") [VNum 1]
           storeProvider 3 (resolved storeProvider)).
  - reflexivity.
  - intros a. exists (S a). reflexivity.
  - intros s s1 s2 r. apply store_reads_back_undefined.
  - exists acme. reflexivity.
Defined.

(** In contrast, a result other than [undefined] is served from the store on
    the second call. *)
Example counter_is_called_once :
  funcCalls (repeatedly 3 (memoizedFunction (memoize counter (options "total")) [VNum 1])
               (resolved storeProvider)) =
    [[VNum 1]].
Proof. reflexivity. Qed.

#[local] Existing Instance Sample.database.

(** The sample store forgets what is removed, and removing one key does not
    bring another back. *)
Lemma lookup_remove_same (k : string) (s : store) : lookup k (remove k s) = VUndefined.
Proof.
  induction s as [| [k' v] s IH]; cbn; [reflexivity |].
  destruct (String.eqb k k') eqn:E; [exact IH |].
  cbn. now rewrite E.
Qed.

Lemma lookup_remove_other (k k' : string) (s : store) :
  lookup k s = VUndefined -> lookup k (remove k' s) = VUndefined.
Proof.
  induction s as [| [k0 v] s IH]; cbn; [reflexivity |].
  destruct (String.eqb k k0) eqn:E; intros H.
  - destruct (String.eqb k' k0) eqn:E'.
    + apply String.eqb_eq in E, E'. subst k0 k'. apply lookup_remove_same.
    + cbn. now rewrite E.
  - destruct (String.eqb k' k0); [now apply IH |].
    cbn. rewrite E. now apply IH.
Qed.

Lemma fetchCollectiveId_hit_witness :
  fetchCollectiveId "Acme" warm =
    (Ok (Fulfilled (VNum 42)),
     snd (cache_get (VStr "collective_id_with_slug_Acme") None warm)) /\
  app (snd (cache_get (VStr "collective_id_with_slug_Acme") None warm)) = 0%nat.
Proof.
  destruct (fetchCollectiveId_hit "Acme" warm
              (snd (cache_get (VStr "collective_id_with_slug_Acme") None warm))
              (VNum 42)) as (H1 & H2 & _); [reflexivity | reflexivity |].
  split; [exact H1 | exact H2].
Defined.

Lemma fetchCollectiveId_miss_found_witness :
  exists w',
    fetchCollectiveId "Acme" start = (Ok (Fulfilled (VNum 42)), w') /\
    app w' = 1%nat /\
    providerCalls w' =
      [PGet (VStr "collective_id_with_slug_Acme") None;
       PSet (VStr "collective_id_with_slug_Acme") (VNum 42) (VNum 86400) None].
Proof.
  destruct (fetchCollectiveId_miss_found "Acme" start
              (snd (cache_get (VStr "collective_id_with_slug_Acme") None start))
              VUndefined (VObj [("id", VNum 42)]) 1%nat)
    as (w' & H1 & H2 & _ & H3); [reflexivity | reflexivity | reflexivity | reflexivity |].
  exists w'. split; [exact H1 |]. split; [exact H2 |].
  exact (H3 storeProvider eq_refl).
Defined.

Lemma fetchCollectiveId_not_found_witness :
  exists w',
    fetchCollectiveId "nobody" start = (Ok (Fulfilled VUndefined), w') /\
    app w' = 1%nat /\
    backend w' = acme.
Proof.
  destruct (fetchCollectiveId_not_found_is_not_cached "nobody" start
              (snd (cache_get (VStr "collective_id_with_slug_nobody") None start))
              VUndefined VNull 1%nat)
    as (w' & H1 & H2 & _ & H3 & _); [reflexivity | reflexivity | reflexivity | reflexivity |].
  exists w'. split; [exact H1 |]. split; [exact H2 | exact H3].
Defined.

Lemma fetchCollectiveId_query_failure_witness :
  exists w',
    fetchCollectiveId "OFFLINE" start = (Ok (Rejected (Error "database is down")), w') /\
    backend w' = acme.
Proof.
  destruct (fetchCollectiveId_query_failure_propagates "OFFLINE" start
              (snd (cache_get (VStr "collective_id_with_slug_OFFLINE") None start))
              VUndefined (Ok (Rejected (Error "database is down"))) 1%nat
              (Error "database is down"))
    as (w' & H1 & _ & H2 & _);
    [reflexivity | reflexivity | reflexivity | right; reflexivity |].
  exists w'. split; [exact H1 | exact H2].
Defined.

Lemma fetchCollectiveId_second_call_witness :
  let w1 := snd (fetchCollectiveId "Acme" (resolved storeProvider)) in
  fst (fetchCollectiveId "Acme" (resolved storeProvider)) = Ok (Fulfilled (VNum 42)) /\
  fst (fetchCollectiveId "Acme" w1) = Ok (Fulfilled (VNum 42)) /\
  app (snd (fetchCollectiveId "Acme" w1)) = 1%nat.
Proof.
  apply (fetchCollectiveId_second_call_is_cached "Acme" (resolved storeProvider)
           storeProvider VUndefined (VObj [("id", VNum 42)]) 1%nat
           acme
           (("collective_id_with_slug_Acme", VNum 42) :: acme)
           (("collective_id_with_slug_Acme", VNum 42) :: acme)
           (Ok (Fulfilled VUndefined))); reflexivity.
Defined.

Lemma fetchCollectiveId_outage_witness :
  exists w',
    fetchCollectiveId "Acme" outage = (Ok (Fulfilled (VNum 42)), w') /\
    warnings w' =
      ["Error while fetching from cache: connect ECONNREFUSED 127.0.0.1:6379";
       "Error while writing to cache: connect ECONNREFUSED 127.0.0.1:6379"] /\
    providerCalls w' = [] /\
    unhandled w' = [].
Proof.
  apply (fetchCollectiveId_survives_outage "Acme" outage ECONNREFUSED
           (VObj [("id", VNum 42)]) 1%nat); reflexivity.
Defined.

(** A process configured for Redis whose factory cannot connect: the store
    provider is never tried, even after the configuration is emptied. *)
Lemma failed_provider_witness :
  let w2 := run (I := unreachable) [Reconfigure noConfig; Call getA]
              (snd (facade (I := unreachable) getA coldRedis)) in
  fst (facade (I := unreachable) getA coldRedis) = Ok (Fulfilled VUndefined) /\
  fst (facade (I := unreachable) (OpHas (VStr "a")) w2) = Ok (Fulfilled VUndefined) /\
  instantiated (snd (facade (I := unreachable) (OpHas (VStr "a")) w2)) = ["REDIS"] /\
  providerCalls (snd (facade (I := unreachable) (OpHas (VStr "a")) w2)) = [].
Proof.
  cbn zeta.
  destruct (failed_provider_is_never_retried (I := unreachable) coldRedis ECONNREFUSED
              getA (OpHas (VStr "a")) [Reconfigure noConfig; Call getA])
    as (H1 & H2 & _ & H3 & H4 & _); [reflexivity | reflexivity |].
  split; [exact H1 |]. split; [exact H2 |]. split; [exact H3 | exact H4].
Defined.

Lemma first_call_witness :
  instantiated (snd (facade getA coldRedis)) = ["REDIS"] /\
  instantiated (snd (facade getA start)) = ["MEMORY"].
Proof.
  split.
  - apply (first_call_builds_configured_provider getA coldRedis). reflexivity.
  - apply (first_call_builds_configured_provider getA start). reflexivity.
Defined.

Lemma refresh_witness :
  exists w',
    refresh (memoize counter (options "total")) [VNum 1] start =
      (Ok (Fulfilled VUndefined), w') /\
    funcCalls w' = [[VNum 1]] /\
    app w' = 1%nat /\
    debugs w' = [("set total_#{" ++ quote ++ "0" ++ quote ++ ":1}")%string].
Proof.
  exact (refresh_recomputes_without_reading counter (options "total") [VNum 1] start
           (VNum 0) 1%nat eq_refl).
Defined.

(** [a] is in the store: after [clear] it is computed afresh. *)
Lemma clear_then_call_witness :
  let m := memoize counter (options "a") in
  let w1 := snd (clear m [] (resolved storeProvider)) in
  fst (memoizedFunction m [] w1) = Ok (Fulfilled (VNum 0)) /\
  funcCalls (snd (memoizedFunction m [] w1)) = [[]].
Proof.
  apply (clear_then_call_recomputes counter (options "a") [] (resolved storeProvider)
           storeProvider (Ok (Fulfilled VUndefined))
           (remove "a" acme) (remove "a" acme) (VNum 0) 1%nat); reflexivity.
Defined.

Lemma refresh_then_call_witness :
  let m := memoize counter (options "a") in
  let w1 := snd (refresh m [] (resolved storeProvider)) in
  fst (memoizedFunction m [] w1) = Ok (Fulfilled (VNum 0)) /\
  funcCalls (snd (memoizedFunction m [] w1)) = [[]].
Proof.
  apply (refresh_then_call_hits counter (options "a") [] (resolved storeProvider)
           storeProvider (Ok (Fulfilled VUndefined))
           (("a", VNum 0) :: remove "a" acme) (("a", VNum 0) :: remove "a" acme)
           (VNum 0) 1%nat); reflexivity.
Defined.

Lemma memoized_outage_witness :
  exists w',
    memoizedFunction (memoize counter (options "total")) [] outage =
      (Ok (Fulfilled (VNum 0)), w') /\
    funcCalls w' = [[]] /\
    warnings w' =
      ["Error while fetching from cache: connect ECONNREFUSED 127.0.0.1:6379";
       "Error while writing to cache: connect ECONNREFUSED 127.0.0.1:6379"] /\
    providerCalls w' = [] /\
    unhandled w' = [] /\
    defaultProvider w' = Some (Rejected ECONNREFUSED).
Proof.
  apply (memoized_survives_outage counter (options "total") [] outage ECONNREFUSED
           (VNum 0) 1%nat); reflexivity.
Defined.

Lemma memoized_second_call_witness :
  let g := memoizedFunction (memoize counter (options "total")) [VNum 1] in
  fst (g (resolved storeProvider)) = Ok (Fulfilled (VNum 0)) /\
  fst (g (snd (g (resolved storeProvider)))) = Ok (Fulfilled (VNum 0)) /\
  funcCalls (snd (g (snd (g (resolved storeProvider))))) = [[VNum 1]].
Proof.
  apply (memoized_second_call_hits counter (options "total") [VNum 1]
           (resolved storeProvider) storeProvider (VNum 0)
           acme
           ((cacheKey "total" [VNum 1], VNum 0) :: acme)
           ((cacheKey "total" [VNum 1], VNum 0) :: acme)
           1%nat (Ok (Fulfilled VUndefined))); reflexivity.
Defined.

Lemma purge_non_iterable_witness :
  exists e w',
    purgeGraphqlCacheForCollective "acme" corrupted =
      (Ok (Rejected e), w') /\
    name e = "TypeError" /\
    providerCalls w' =
      [PGet (VStr "graphqlCacheKeys_acme") None; PDelete (VStr "graphqlCacheKeys_acme")].
Proof.
  refine (purge_rejects_on_non_iterable_set "acme" corrupted
            (snd (cache_get (VStr "graphqlCacheKeys_acme") None corrupted))
            (VNum 5) _ _ _); reflexivity.
Defined.

Lemma purge_twice_witness :
  let w1 := snd (purgeGraphqlCacheForCollective "acme" (resolved storeProvider)) in
  fst (purgeGraphqlCacheForCollective "acme" w1) = Ok (Fulfilled VUndefined) /\
  deletes (providerCalls (snd (purgeGraphqlCacheForCollective "acme" w1))) =
    deletes (providerCalls w1).
Proof.
  apply (purge_twice_deletes_once "acme" (resolved storeProvider) storeProvider
           [VStr "a"; VStr "b"] acme).
  - reflexivity.
  - reflexivity.
  - intros s. eexists. cbn. now rewrite lookup_remove_same.
  - intros k s [s' H]. cbn in H. injection H as H1 H2.
    eexists. cbn. now rewrite (lookup_remove_other _ _ _ H1).
Defined.

Lemma purgeCacheForCollective_witness :
  exists w',
    purgeCacheForCollective "offline" start = (Ok tt, w') /\
    pagePurges w' = ["/offline"] /\
    contributorsInvalidations w' = [] /\
    app w' = 0%nat.
Proof.
  refine (purgeCacheForCollective_fires_and_forgets "offline" start
            (Rejected (Error "ETIMEDOUT")) 0%nat _); reflexivity.
Defined.

Lemma purgeAll_settles_witness :
  fst (purgeAllCachesForAccount offlineAccount start) = Ok (Fulfilled VUndefined) /\
  app (snd (purgeAllCachesForAccount offlineAccount start)) = 0%nat.
Proof.
  refine (purgeAll_settles_as_contributors_invalidation offlineAccount start
            (Rejected (Error "ETIMEDOUT")) 0%nat 0%nat (Ok (Fulfilled VUndefined))
            _ _); reflexivity.
Defined.

Lemma facade_catches_throw_witness :
  exists w',
    facade (OpSet (VStr "a") (VNum 1) (VNum 0) None)
      (resolved (throwingProvider (Error "socket closed"))) =
      (Ok (Fulfilled VUndefined), w') /\
    warnings w' = ["Error while writing to cache: socket closed"].
Proof.
  refine (facade_catches_throw (OpSet (VStr "a") (VNum 1) (VNum 0) None)
            (resolved (throwingProvider (Error "socket closed")))
            (throwingProvider (Error "socket closed")) (Error "socket closed") acme
            _ _); reflexivity.
Defined.

End Examples.

(** * Properties of the user model *)

Section UserProperties.

Import User.

Context {C : Constants}.

Lemma split_not_nil (sep : ascii) (s : string) : split sep s <> [].
Proof.
  destruct s as [| c rest]; cbn; [discriminate |].
  destruct (Ascii.eqb c sep); [discriminate |].
  destruct (split sep rest); discriminate.
Qed.

(** Joining the tokens with the separator gives the string back. *)
Lemma join_split (sep : ascii) (s : string) :
  join (String sep EmptyString) (split sep s) = s.
Proof.
  unfold join. induction s as [| c rest IH]; cbn; [reflexivity |].
  destruct (Ascii.eqb c sep) eqn:E.
  - apply Ascii.eqb_eq in E. subst c.
    destruct (split sep rest) as [| t ts] eqn:Es;
      [now destruct (split_not_nil sep rest) |].
    cbn in *. now rewrite IH.
  - destruct (split sep rest) as [| t ts] eqn:Es;
      [now destruct (split_not_nil sep rest) |].
    destruct ts; cbn in *; now rewrite <- IH.
Qed.

(** The first token holds no separator. *)
Lemma split_head_clean (sep : ascii) (s : string) (t : string) (ts : list string) :
  split sep s = t :: ts ->
  forall c, In c (list_ascii_of_string t) -> c <> sep.
Proof.
  revert t ts. induction s as [| c0 rest IH]; cbn; intros t ts H c Hin.
  - inversion H; subst. destruct Hin.
  - destruct (Ascii.eqb c0 sep) eqn:E.
    + inversion H; subst. destruct Hin.
    + destruct (split sep rest) as [| t' ts'] eqn:Es.
      * inversion H; subst. cbn in Hin. destruct Hin as [<- | []].
        intros ->. now rewrite Ascii.eqb_refl in E.
      * inversion H; subst. cbn in Hin. destruct Hin as [<- | Hin].
        -- intros ->. now rewrite Ascii.eqb_refl in E.
        -- eapply IH; [reflexivity | exact Hin].
Qed.

(** X21: [User.splitName] loses nothing of a non-empty name.  The first
    name is the text before the first space and holds no space; without a
    space the last name is [null] and the first name is the whole name;
    otherwise first name, a space and last name give the name back. *)
Theorem splitName_round_trip (s : string) :
  s <> "" ->
  exists first,
    (forall c, In c (list_ascii_of_string first) -> c <> " "%char) /\
    ((splitName (VStr s) = Ok {| firstName := VStr first; lastName := VNull |} /\
      s = first) \/
     (exists last,
        splitName (VStr s) =
          Ok {| firstName := VStr first; lastName := VStr last |} /\
        s = first ++ " " ++ last)).
Proof.
  intros Hs. unfold splitName.
  assert (Ht : truthy (VStr s) = true).
  { cbn. destruct s; [congruence | reflexivity]. }
  rewrite Ht.
  pose proof (join_split " " s) as Hj.
  destruct (split " " s) as [| t ts] eqn:Es;
    [now destruct (split_not_nil " " s) |].
  exists t. split; [exact (split_head_clean " " s t ts Es) |].
  destruct ts as [| t2 ts].
  - left. cbn in *. split; [reflexivity | congruence].
  - right. exists (join " " (t2 :: ts)). split; [reflexivity |].
    rewrite <- Hj. reflexivity.
Qed.

(** ** Roles *)

Lemma intersects_spec (a b : list string) :
  intersects a b = true <-> exists x, In x a /\ In x b.
Proof.
  unfold intersects. rewrite existsb_exists. split.
  - intros (x & Ha & Hb). apply existsb_exists in Hb as (y & Hy & E).
    apply String.eqb_eq in E. subst y. eauto.
  - intros (x & Ha & Hb). exists x. split; [exact Ha |].
    apply existsb_exists. exists x. split; [exact Hb | apply String.eqb_refl].
Qed.

(** X22: every admin is a member.  For a truthy collective id, [isAdmin]
    implies [isMember]. *)
Theorem admin_is_member (collectiveId : value) (this : user) :
  truthy collectiveId = true ->
  isAdmin collectiveId this = true ->
  isMember collectiveId this = true.
Proof.
  intros Ht. unfold isAdmin, isMember, hasRole. rewrite Ht. cbn [negb].
  destruct (is_number (CollectiveId this) (Number collectiveId)).
  - intros _. apply orb_true_r.
  - cbn [orb]. intros H. apply orb_true_iff. right.
    destruct (rolesByCollectiveId this) as [byId |]; [| discriminate].
    apply intersects_spec in H as (x & Ha & Hb).
    apply intersects_spec. exists x. split; [exact Ha |].
    cbn in *. tauto.
Qed.

(** X23: before [populateRoles] has run, a user holds roles in its own
    collective and nowhere else: [hasRole] is true exactly for a truthy id
    that is the number of the user's collective. *)
Theorem unpopulated_user_has_only_own_collective (roles : roles_arg)
    (collectiveId : value) (this : user) :
  rolesByCollectiveId this = None ->
  hasRole roles collectiveId this =
    truthy collectiveId && is_number (CollectiveId this) (Number collectiveId).
Proof.
  intros H. unfold hasRole. rewrite H.
  destruct (truthy collectiveId); cbn; [| reflexivity].
  now destruct (is_number (CollectiveId this) (Number collectiveId)).
Qed.

Lemma roles_of_push (c c' : Z) (r x : string) (m : Roles) :
  In x (roles_of c (push_role c' r m)) <->
  In x (roles_of c m) \/ (c = c' /\ x = r).
Proof.
  induction m as [| [c0 rs] m IH]; cbn.
  - destruct (Z.eqb c c') eqn:E.
    + apply Z.eqb_eq in E. cbn. intuition congruence.
    + apply Z.eqb_neq in E. cbn. intuition congruence.
  - destruct (Z.eqb c' c0) eqn:E'.
    + apply Z.eqb_eq in E'. subst c0. cbn.
      destruct (Z.eqb c c') eqn:E.
      * apply Z.eqb_eq in E. rewrite in_app_iff. cbn. intuition congruence.
      * apply Z.eqb_neq in E. intuition congruence.
    + cbn. destruct (Z.eqb c c0) eqn:E.
      * apply Z.eqb_eq in E. apply Z.eqb_neq in E'. intuition congruence.
      * exact IH.
Qed.

Lemma record_memberships_spec (rows : list Member) (byId : Roles) (adminOf : list Z) :
  (forall c x,
     In x (roles_of c (fst (record_memberships rows (byId, adminOf)))) <->
     In x (roles_of c byId) \/
     In {| member_CollectiveId := c; member_role := x |} rows) /\
  snd (record_memberships rows (byId, adminOf)) = (adminOf ++ admin_ids rows)%list.
Proof.
  unfold record_memberships, admin_ids.
  revert byId adminOf. induction rows as [| [c0 r0] rows IH]; intros byId adminOf.
  - cbn. split; [intuition | now rewrite app_nil_r].
  - cbn [fold_left member_CollectiveId member_role filter].
    destruct (IH (push_role c0 r0 byId)
                (if String.eqb r0 ADMIN then (adminOf ++ [c0])%list else adminOf))
      as [IH1 IH2].
    split.
    + intros c x. rewrite IH1, roles_of_push. cbn [In].
      split.
      * intros [[H | [-> ->]] | H]; auto.
      * intros [H | [H | H]]; auto. inversion H; subst. auto.
    + rewrite IH2. destruct (String.eqb r0 ADMIN); cbn [map].
      * now rewrite <- app_assoc.
      * reflexivity.
Qed.

Lemma record_hosted_spec (rows : list Member) (byId : Roles) (c : Z) (x : string) :
  In x (roles_of c (record_hosted rows byId)) <->
  In x (roles_of c byId) \/
  (x = ADMIN /\ exists m, In m rows /\ member_CollectiveId m = c).
Proof.
  unfold record_hosted.
  revert byId. induction rows as [| m0 rows IH]; intros byId; cbn [fold_left].
  - split; [auto | intros [H | (_ & m & [] & _)]; exact H].
  - rewrite IH, roles_of_push. cbn [In]. split.
    + intros [[H | [-> ->]] | (-> & m & Hm & <-)]; eauto 6.
    + intros [H | (-> & m & [<- | Hm] & <-)]; eauto 6.
Qed.

Lemma record_memberships_start (rows : list Member) :
  (forall c x,
     In x (roles_of c (fst (record_memberships rows ([], [])))) <->
     In {| member_CollectiveId := c; member_role := x |} rows) /\
  snd (record_memberships rows ([], [])) = admin_ids rows.
Proof.
  destruct (record_memberships_spec rows [] []) as [H1 H2]. split.
  - intros c x. rewrite H1. cbn. tauto.
  - exact H2.
Qed.

(** What [populateRoles] leaves in [rolesByCollectiveId]. *)
Lemma populateRoles_spec
    (findMemberships : value -> promise (list Member))
    (findHostMemberships : list Z -> promise (list Member))
    (this : user) (memberships hosted : list Member) :
  rolesByCollectiveId this = None ->
  findMemberships (CollectiveId this) = Fulfilled memberships ->
  (admin_ids memberships <> [] ->
   findHostMemberships (admin_ids memberships) = Fulfilled hosted) ->
  (admin_ids memberships = [] -> hosted = []) ->
  exists byId,
    populateRoles findMemberships findHostMemberships this =
      Fulfilled {| CollectiveId := CollectiveId this;
                   rolesByCollectiveId := Some byId |} /\
    forall c x,
      In x (roles_of c byId) <->
      In {| member_CollectiveId := c; member_role := x |} memberships \/
      (x = ADMIN /\ exists m, In m hosted /\ member_CollectiveId m = c).
Proof.
  intros Hnone Hfind Hhost Hnohost. unfold populateRoles. rewrite Hnone, Hfind.
  pose proof (record_memberships_start memberships) as [H1 H2].
  destruct (record_memberships memberships ([], [])) as [byId adminOf] eqn:Er.
  cbn [fst snd] in H1, H2. subst adminOf.
  destruct (admin_ids memberships) as [| a ids] eqn:Ea.
  - rewrite (Hnohost eq_refl). exists byId. split; [reflexivity |].
    intros c x. rewrite H1. split.
    + auto.
    + intros [H | (_ & m & [] & _)]; auto.
  - rewrite Hhost by discriminate.
    exists (record_hosted hosted byId). split; [reflexivity |].
    intros c x. rewrite record_hosted_spec, H1. tauto.
Qed.

(** X24: [populateRoles] records what the queries return and nothing else.
    After it, the user has role [x] in a collective [c] other than its own
    exactly when a membership row says so, or when [x] is ADMIN and [c] is
    hosted by a collective the user administers. *)
Theorem populateRoles_grants_exactly
    (findMemberships : value -> promise (list Member))
    (findHostMemberships : list Z -> promise (list Member))
    (this : user) (memberships hosted : list Member) :
  rolesByCollectiveId this = None ->
  findMemberships (CollectiveId this) = Fulfilled memberships ->
  (admin_ids memberships <> [] ->
   findHostMemberships (admin_ids memberships) = Fulfilled hosted) ->
  (admin_ids memberships = [] -> hosted = []) ->
  exists populated,
    populateRoles findMemberships findHostMemberships this = Fulfilled populated /\
    CollectiveId populated = CollectiveId this /\
    forall c x,
      c <> 0%Z ->
      is_number (CollectiveId this) (Some c) = false ->
      (hasRole (One x) (VNum c) populated = true <->
       In {| member_CollectiveId := c; member_role := x |} memberships \/
       (x = ADMIN /\ exists m, In m hosted /\ member_CollectiveId m = c)).
Proof.
  intros Hnone Hfind Hhost Hnohost.
  destruct (populateRoles_spec findMemberships findHostMemberships this
              memberships hosted Hnone Hfind Hhost Hnohost) as (byId & Hp & Hroles).
  eexists. split; [exact Hp |]. split; [reflexivity |].
  intros c x Hc Hown. unfold hasRole. cbn [truthy Number CollectiveId rolesByCollectiveId].
  apply Z.eqb_neq in Hc. rewrite Hc. cbn [negb]. rewrite Hown.
  rewrite intersects_spec, <- Hroles. split.
  - intros (y & Hy & [<- | []]). exact Hy.
  - intros H. exists x. cbn. auto.
Qed.

(** X25: the admins of a host are admins of what it hosts.  Every collective
    returned by the second query of [populateRoles] is one the populated
    user [isAdmin] of, although no membership row names the user. *)
Theorem populateRoles_host_admin_inherits
    (findMemberships : value -> promise (list Member))
    (findHostMemberships : list Z -> promise (list Member))
    (this : user) (memberships hosted : list Member) (m : Member) :
  rolesByCollectiveId this = None ->
  findMemberships (CollectiveId this) = Fulfilled memberships ->
  admin_ids memberships <> [] ->
  findHostMemberships (admin_ids memberships) = Fulfilled hosted ->
  In m hosted ->
  member_CollectiveId m <> 0%Z ->
  exists populated,
    populateRoles findMemberships findHostMemberships this = Fulfilled populated /\
    isAdmin (VNum (member_CollectiveId m)) populated = true.
Proof.
  intros Hnone Hfind Hadmin Hhost Hin Hc.
  destruct (populateRoles_spec findMemberships findHostMemberships this
              memberships hosted Hnone Hfind (fun _ => Hhost))
    as (byId & Hp & Hroles); [intros E; now destruct Hadmin |].
  eexists. split; [exact Hp |].
  unfold isAdmin, hasRole. cbn [truthy Number CollectiveId rolesByCollectiveId].
  apply Z.eqb_neq in Hc. rewrite Hc. cbn [negb].
  destruct (is_number (CollectiveId this) (Some (member_CollectiveId m)));
    [reflexivity |].
  cbn [orb]. apply intersects_spec. exists ADMIN. split.
  - apply Hroles. right. split; [reflexivity |]. eauto.
  - cbn. auto.
Qed.

(** X26: [populateRoles] runs its queries once: on a user it has populated
    it returns the user as it is, without a query. *)
Theorem populateRoles_is_idempotent
    (findMemberships : value -> promise (list Member))
    (findHostMemberships : list Z -> promise (list Member))
    (failing : value -> promise (list Member))
    (this populated : user) :
  populateRoles findMemberships findHostMemberships this = Fulfilled populated ->
  populateRoles failing (fun _ => Rejected (Error "no database")) populated =
    Fulfilled populated.
Proof.
  unfold populateRoles.
  destruct (rolesByCollectiveId this) as [byId |] eqn:E.
  - intros H. inversion H; subst. now rewrite E.
  - destruct (findMemberships (CollectiveId this)) as [ms | e]; [| discriminate].
    destruct (record_memberships ms ([], [])) as [byId adminOf].
    destruct adminOf as [| a ids].
    + intros H. inversion H; subst. reflexivity.
    + destruct (findHostMemberships (a :: ids)) as [hs | e]; [| discriminate].
      intros H. inversion H; subst. reflexivity.
Qed.

End UserProperties.

(** * The user model on a concrete user *)

Section UserExamples.

Import User.

#[local] Existing Instance sampleConstants.

Lemma splitName_witness :
  exists first,
    (forall c, In c (list_ascii_of_string first) -> c <> " "%char) /\
    ((splitName (VStr "Ada King Lovelace") =
        Ok {| firstName := VStr first; lastName := VNull |} /\
      "Ada King Lovelace" = first) \/
     (exists last,
        splitName (VStr "Ada King Lovelace") =
          Ok {| firstName := VStr first; lastName := VStr last |} /\
        "Ada King Lovelace" = first ++ " " ++ last)).
Proof.
  apply (splitName_round_trip "Ada King Lovelace"). discriminate.
Defined.

Example splitName_examples :
  splitName (VStr "Ada King Lovelace") =
    Ok {| firstName := VStr "Ada"; lastName := VStr "King Lovelace" |} /\
  splitName (VStr "Ada") = Ok {| firstName := VStr "Ada"; lastName := VNull |} /\
  splitName (VStr " Ada") = Ok {| firstName := VStr ""; lastName := VStr "Ada" |} /\
  splitName VUndefined = Ok {| firstName := VNull; lastName := VNull |}.
Proof. repeat split. Qed.

Lemma admin_is_member_witness : isMember (VStr "7") populatedUser = true.
Proof.
  apply (admin_is_member (VStr "7") populatedUser); reflexivity.
Defined.

Lemma unpopulated_witness :
  hasRole (One "ADMIN") (VNum 20) sampleUser = false /\
  hasRole (One "ADMIN") (VNum 7) sampleUser = true.
Proof.
  split.
  - rewrite (unpopulated_user_has_only_own_collective (One "ADMIN") (VNum 20)
               sampleUser eq_refl). reflexivity.
  - rewrite (unpopulated_user_has_only_own_collective (One "ADMIN") (VNum 7)
               sampleUser eq_refl). reflexivity.
Defined.

Lemma populateRoles_witness :
  populateRoles sampleMemberships sampleHosted sampleUser = Fulfilled populatedUser /\
  hasRole (One "BACKER") (VNum 10) populatedUser = true /\
  hasRole (One "ADMIN") (VNum 30) populatedUser = true /\
  hasRole (One "ADMIN") (VNum 10) populatedUser = false.
Proof.
  destruct (populateRoles_grants_exactly sampleMemberships sampleHosted sampleUser
              [ {| member_CollectiveId := 10; member_role := "BACKER" |};
                {| member_CollectiveId := 20; member_role := "ADMIN" |} ]
              [ {| member_CollectiveId := 30; member_role := "HOST" |} ])
    as (populated & Hp & _ & H);
    [reflexivity | reflexivity | reflexivity | discriminate |].
  assert (populated = populatedUser) as -> by (cbn in Hp; now inversion Hp).
  split; [reflexivity |].
  split; [| split].
  - apply H; [discriminate | reflexivity |]. left. cbn. auto.
  - apply H; [discriminate | reflexivity |]. right. split; [reflexivity |].
    eexists. split; [left; reflexivity | reflexivity].
  - reflexivity.
Defined.

Lemma host_admin_witness :
  exists populated,
    populateRoles sampleMemberships sampleHosted sampleUser = Fulfilled populated /\
    isAdmin (VNum 30) populated = true.
Proof.
  apply (populateRoles_host_admin_inherits sampleMemberships sampleHosted sampleUser
           [ {| member_CollectiveId := 10; member_role := "BACKER" |};
             {| member_CollectiveId := 20; member_role := "ADMIN" |} ]
           [ {| member_CollectiveId := 30; member_role := "HOST" |} ]
           {| member_CollectiveId := 30; member_role := "HOST" |});
    try reflexivity; try discriminate.
  left. reflexivity.
Defined.

Lemma populateRoles_idempotent_witness :
  populateRoles (fun _ => Rejected (Error "no database"))
    (fun _ => Rejected (Error "no database")) populatedUser =
    Fulfilled populatedUser.
Proof.
  apply (populateRoles_is_idempotent sampleMemberships sampleHosted
           (fun _ => Rejected (Error "no database")) sampleUser populatedUser).
  reflexivity.
Defined.

End UserExamples.
